(** * excel-wizard: the selection-to-table pipeline

    A shallow embedding of the range selector (src/components/range-selector.tsx),
    the selection applier (src/lib/selection.ts), the workbook parser's header
    and CSV helpers (src/lib/excel.ts), the table sync (src/App.tsx) and the
    suggestion service (src/lib/azure-openai.ts), with the properties the
    specification states about them.

    Conventions.
    - A JavaScript number that holds an index or a length is a [Z]; array
      lengths are [nat] where the code only counts.
    - A JavaScript string is a [string]: one [ascii] per code unit, so the
      model covers the code units 0..255.
    - An object used as a dictionary is a [gmap] from [string] keys.
    - A call that may throw, or a promise that may reject, yields an
      [option] (when the error is caught at once) or an [outcome].
    - What the code receives from outside src/ (the xlsx package, the
      analytical engine, the network, [JSON]) is a parameter of the
      definitions that use it. The range decoder of the xlsx package is
      written out twice: [xlsx.decode_range] is the range notation of the
      specification, [utils.decode_range] the decoder the package ships. *)

From Stdlib Require Import ZArith Lia Ascii String.
From stdpp Require Import gmap strings list.

Local Open Scope Z_scope.

(** ** Characters and strings *)

Definition charCode (a : ascii) : Z := Z.of_N (N_of_ascii a).

Definition fromCharCode (z : Z) : ascii := ascii_of_N (Z.to_N z).

(** The double quote and the line feed, which a string literal cannot hold. *)
Definition dquote : ascii := fromCharCode 34.
Definition LF : ascii := fromCharCode 10.
Definition newline : string := String LF "".

Fixpoint string_forallb (p : ascii -> bool) (s : string) : bool :=
  match s with
  | EmptyString => true
  | String a s' => p a && string_forallb p s'
  end.

Fixpoint string_existsb (p : ascii -> bool) (s : string) : bool :=
  match s with
  | EmptyString => false
  | String a s' => p a || string_existsb p s'
  end.

Definition is_empty (s : string) : bool :=
  match s with EmptyString => true | String _ _ => false end.

(** [String.prototype.trim]: white space and line terminators among the
    code units 0..255 are TAB, LF, VT, FF, CR, SP and NBSP. *)
Definition is_js_space (a : ascii) : bool :=
  let n := charCode a in
  ((9 <=? n) && (n <=? 13)) || (n =? 32) || (n =? 160).

Fixpoint trimStart (s : string) : string :=
  match s with
  | EmptyString => EmptyString
  | String a s' => if is_js_space a then trimStart s' else s
  end.

Fixpoint trimEnd (s : string) : string :=
  match s with
  | EmptyString => EmptyString
  | String a s' =>
      let t := trimEnd s' in
      if is_js_space a && is_empty t then EmptyString else String a t
  end.

Definition trim (s : string) : string := trimEnd (trimStart s).

(** ** Integers as decimal text: [String(n)] and [`${n}`] on an integer *)

Definition digit_char (d : Z) : ascii := fromCharCode (48 + d).

Fixpoint decimal_go (fuel : nat) (n : Z) (acc : string) : string :=
  let acc' := String (digit_char (n mod 10)) acc in
  match fuel with
  | O => acc'
  | S f => if n <? 10 then acc' else decimal_go f (n / 10) acc'
  end.

(** The decimal digits of [n >= 0]; [Z.log2 n] steps are enough to reach the
    leading digit (lemma [decimal_go_fuel] below). *)
Definition decimal (n : Z) : string :=
  decimal_go (Z.to_nat (Z.log2 n)) n EmptyString.

Definition Number_toString (n : Z) : string :=
  if n <? 0 then String "-" (decimal (- n)) else decimal n.

(** ** Range selector (src/components/range-selector.tsx) *)

Record CellPosition := { row : Z; col : Z }.

Record SelectionState := { start : option CellPosition; end_ : option CellPosition }.

(** The loop of [cellToExcelNotation]:
    [while (c >= 0) { colName = chr(65 + c % 26) + colName; c = floor(c / 26) - 1 }]. *)
Fixpoint colName_loop (fuel : nat) (c : Z) (colName : string) : string :=
  match fuel with
  | O => colName
  | S f =>
      if 0 <=? c
      then colName_loop f (c / 26 - 1) (String (fromCharCode (65 + c mod 26)) colName)
      else colName
  end.

(** Each turn at least halves [c], so [Z.log2 c + 2] turns reach [c < 0]
    (lemma [colName_loop_fuel] below). *)
Definition colName_of (c : Z) : string :=
  colName_loop (Z.to_nat (Z.log2 c) + 2) c EmptyString.

Definition cellToExcelNotation (row col : Z) : string :=
  colName_of col +:+ Number_toString (row + 1).

Definition selectionToRange (selection : SelectionState) : string :=
  match start selection, end_ selection with
  | Some s, Some e =>
      let startCell := cellToExcelNotation (Z.min (row s) (row e)) (Z.min (col s) (col e)) in
      let endCell := cellToExcelNotation (Z.max (row s) (row e)) (Z.max (col s) (col e)) in
      startCell +:+ ":" +:+ endCell
  | _, _ => EmptyString
  end.

Definition isCellInSelection (r c : Z) (selection : SelectionState) : bool :=
  match start selection, end_ selection with
  | Some s, Some e =>
      let minRow := Z.min (row s) (row e) in
      let maxRow := Z.max (row s) (row e) in
      let minCol := Z.min (col s) (col e) in
      let maxCol := Z.max (col s) (col e) in
      (minRow <=? r) && (r <=? maxRow) && (minCol <=? c) && (c <=? maxCol)
  | _, _ => false
  end.

(** ** The spreadsheet library's range decoding *)

Module xlsx.

(** [CellAddress] and [Range] of the xlsx package: 0-based row [r] and
    column [c]; start [s] and end [e] of a range. *)
Record CellAddress := { r : Z; c : Z }.
Record Range := { s : CellAddress; e : CellAddress }.

Definition is_upper (a : ascii) : bool := (65 <=? charCode a) && (charCode a <=? 90).
Definition is_digit (a : ascii) : bool := (48 <=? charCode a) && (charCode a <=? 57).

(** Column letters read as bijective base 26 (A = 1, ..., Z = 26). *)
Fixpoint letters_value (acc : Z) (letters : string) : Z :=
  match letters with
  | EmptyString => acc
  | String a rest => letters_value (26 * acc + (charCode a - 64)) rest
  end.

Fixpoint digits_value (acc : Z) (digits : string) : Z :=
  match digits with
  | EmptyString => acc
  | String a rest => digits_value (10 * acc + (charCode a - 48)) rest
  end.

Fixpoint take_upper (cell : string) : string :=
  match cell with
  | EmptyString => EmptyString
  | String a rest => if is_upper a then String a (take_upper rest) else EmptyString
  end.

Fixpoint drop_upper (cell : string) : string :=
  match cell with
  | EmptyString => EmptyString
  | String a rest => if is_upper a then drop_upper rest else cell
  end.

(** Modelled from the spec: [utils.decode_cell] of the xlsx package, which is
    not under src/. A cell reference is "spreadsheet column-letter + 1-based
    row number" (spec, Range Notation): one or more capital letters, then one
    or more decimal digits that denote a row number of at least 1. Anything
    else is malformed. *)
Definition decode_cell (cell : string) : option CellAddress :=
  let letters := take_upper cell in
  let digits := drop_upper cell in
  if negb (is_empty letters) && negb (is_empty digits)
     && string_forallb is_digit digits && (1 <=? digits_value 0 digits)
  then Some {| r := digits_value 0 digits - 1; c := letters_value 0 letters - 1 |}
  else None.

(** The text before and after the first colon. *)
Fixpoint split_colon (range : string) : option (string * string) :=
  match range with
  | EmptyString => None
  | String a rest =>
      if Ascii.eqb a ":" then Some (EmptyString, rest)
      else match split_colon rest with
           | Some (before, after) => Some (String a before, after)
           | None => None
           end
  end.

(** Modelled from the spec: [utils.decode_range] of the xlsx package, which is
    not under src/. A range is "<TopLeftCell>:<BottomRightCell>" (spec, Range
    Notation); [None] stands for the decoding failure that the caller's
    [try]/[catch] recovers from (spec, SelectionDecodeError). The decoder
    the package ships is [utils.decode_range] below; it accepts more. *)
Definition decode_range (range : string) : option Range :=
  match split_colon range with
  | Some (first, last) =>
      match decode_cell first, decode_cell last with
      | Some s, Some e => Some {| s := s; e := e |}
      | _, _ => None
      end
  | None => None
  end.

End xlsx.

(** ** The decoder of the xlsx package

    [utils.decode_cell] and [utils.decode_range] as the xlsx package (a
    dependency, not under src/) implements them. [decode_cell] makes one pass
    over the code units of the text with two accumulators: a decimal digit
    goes into the row, [R = 10 * R + (cc - 48)], a capital letter into the
    column, [C = 26 * C + (cc - 64)], and any other character is skipped; the
    address is [{ c: C - 1, r: R - 1 }]. [decode_range] cuts the text at its
    first colon and decodes both parts, or decodes the whole text twice when
    there is no colon. Neither throws on a string. *)
Module utils.

Fixpoint decode_cell_loop (R C : Z) (cstr : string) : xlsx.CellAddress :=
  match cstr with
  | EmptyString => {| xlsx.r := R - 1; xlsx.c := C - 1 |}
  | String a rest =>
      let cc := charCode a in
      if (48 <=? cc) && (cc <=? 57) then decode_cell_loop (10 * R + (cc - 48)) C rest
      else if (65 <=? cc) && (cc <=? 90) then decode_cell_loop R (26 * C + (cc - 64)) rest
      else decode_cell_loop R C rest
  end.

Definition decode_cell (cstr : string) : xlsx.CellAddress := decode_cell_loop 0 0 cstr.

Definition decode_range (range : string) : xlsx.Range :=
  match xlsx.split_colon range with
  | None => {| xlsx.s := decode_cell range; xlsx.e := decode_cell range |}
  | Some (first, last) => {| xlsx.s := decode_cell first; xlsx.e := decode_cell last |}
  end.

(** The decoder as [extractRangeMatrix] runs it inside its [try]: it always
    returns. *)
Definition decode_range_in_try (range : string) : option xlsx.Range :=
  Some (decode_range range).

End utils.

(** ** Cell values and row records *)

(** The values a cell of a sheet's matrix holds, and what the code observes
    of them: [typeof], [instanceof Date], [String(v)] and [toISOString()].
    A number is carried by its rendering [String(n)]; a (valid) Date by its
    [toISOString()] text and its [String(d)] text. [VObjectPrototype] is
    [Object.prototype], which reading the key [__proto__] of a fresh object
    yields. *)
Inductive value :=
  | VUndefined
  | VNull
  | VBoolean (b : bool)
  | VNumber (text : string)
  | VBigInt (n : Z)
  | VString (s : string)
  | VDate (iso : string) (text : string)
  | VObjectPrototype.

(** [String(v)]. *)
Definition String_of (v : value) : string :=
  match v with
  | VUndefined => "undefined"
  | VNull => "null"
  | VBoolean true => "true"
  | VBoolean false => "false"
  | VNumber text => text
  | VBigInt n => Number_toString n
  | VString s => s
  | VDate _ text => text
  | VObjectPrototype => "[object Object]"
  end.

(** [v ?? d], where a missing array element or property reads as [undefined]. *)
Definition nullish (v : option value) (d : value) : value :=
  match v with
  | None | Some VUndefined | Some VNull => d
  | Some v' => v'
  end.

(** A record [Record<string, unknown>] built by [{}] and [record[key] = v]:
    its own properties and its prototype ([Object.prototype] at first). *)
Record object := { own : gmap string value; proto : value }.

Definition empty_object : object := {| own := ∅; proto := VObjectPrototype |}.

Definition is_object_or_null (v : value) : bool :=
  match v with
  | VNull | VDate _ _ | VObjectPrototype => true
  | _ => false
  end.

(** [o[key] = v]. The key [__proto__] reaches the accessor that
    [Object.prototype] defines: it replaces the prototype when [v] is an
    object or null and does nothing otherwise; once the prototype is null the
    accessor is out of reach and the key is an ordinary one. *)
Definition obj_set (key : string) (v : value) (o : object) : object :=
  if decide (key = "__proto__") then
    match proto o with
    | VNull => {| own := <[key := v]> (own o); proto := proto o |}
    | _ => if is_object_or_null v then {| own := own o; proto := v |} else o
    end
  else {| own := <[key := v]> (own o); proto := proto o |}.

(** [o[key]] for a key that is an own property or [__proto__]; the methods
    inherited from the prototype are not modelled (the pipeline reads only
    keys it has written). *)
Definition obj_get (key : string) (o : object) : value :=
  match own o !! key with
  | Some v => v
  | None =>
      if decide (key = "__proto__") then
        match proto o with
        | VNull => VUndefined
        | p => p
        end
      else VUndefined
  end.

(** The record whose own properties are the given ones. *)
Definition object_of (properties : list (string * value)) : object :=
  {| own := list_to_map properties; proto := VObjectPrototype |}.

(** ** Workbooks (src/lib/excel.ts, src/lib/selection.ts) *)

Module ParsedSheet.
Record t := {
  name : string;
  columns : list string;
  rows : list object;
  csv : string;
  matrix : list (list value)
}.
End ParsedSheet.

Module ParsedWorkbook.
Record t := { fileName : string; sheets : list ParsedSheet.t }.
End ParsedWorkbook.

Module ProcessedSheet.
Record t := {
  name : string;
  columns : list string;
  rows : list object;
  csv : string
}.
End ProcessedSheet.

Module ProcessedWorkbook.
Record t := { fileName : string; sheets : list ProcessedSheet.t }.
End ProcessedWorkbook.

(** [range?: string; firstRowIsHeader?: boolean]: [None] is an absent field. *)
Record SheetSelection := { range : option string; firstRowIsHeader : option bool }.

(** [sheets?: Record<string, SheetSelection>]. *)
Record WorkbookSelectionConfig := { config_sheets : option (gmap string SheetSelection) }.

(** ** Selection applier (src/lib/selection.ts) *)

Definition FALLBACK_COLUMN_PREFIX : string := "Column".

Definition clamp (value min max : Z) : Z := Z.max min (Z.min max value).

(** [`${FALLBACK_COLUMN_PREFIX}_${index + 1}`]. *)
Definition fallback_column (index : nat) : string :=
  FALLBACK_COLUMN_PREFIX +:+ "_" +:+ Number_toString (Z.of_nat index + 1).

Definition buildColumnsFromHeaderRow (headerRow : list value) (width : nat) : list string :=
  map (fun index =>
         let raw := headerRow !! index in
         let value :=
           match raw with
           | Some (VString s) => trim s
           | None | Some VUndefined | Some VNull => EmptyString
           | Some v => trim (String_of v)
           end in
         if (0 <? String.length value)%nat then value else fallback_column index)
      (seq 0 width).

Definition buildGeneratedColumns (width : nat) : list string :=
  map (fun index => fallback_column index) (seq 0 width).

Section Applier.

(** [utils.decode_range] of the xlsx package; [None] when it throws. *)
Variable decode_range : string -> option xlsx.Range.

Definition extractRangeMatrix (matrix : list (list value)) (range : option string)
  : list (list value) :=
  match range with
  | None | Some EmptyString => matrix
  | Some range =>
      match decode_range range with
      | Some decoded =>
          let maxRow := if (0 <? length matrix)%nat then Z.of_nat (length matrix) - 1 else 0 in
          let maxCol := fold_left (fun acc row => Z.max acc (Z.of_nat (length row) - 1)) matrix 0 in
          let startRow := clamp (xlsx.r (xlsx.s decoded)) 0 maxRow in
          let endRow := clamp (xlsx.r (xlsx.e decoded)) 0 maxRow in
          let startCol := clamp (xlsx.c (xlsx.s decoded)) 0 maxCol in
          let endCol := clamp (xlsx.c (xlsx.e decoded)) 0 maxCol in
          map (fun r =>
                 let sourceRow := default [] (matrix !! Z.to_nat r) in
                 map (fun c => nullish (sourceRow !! Z.to_nat c) VNull)
                     (seqZ startCol (endCol - startCol + 1)))
              (seqZ startRow (endRow - startRow + 1))
      | None => matrix
      end
  end.

Definition matrixToRows (matrix : list (list value)) (columns : list string)
    (headerIncluded : bool) : list object :=
  let dataRows := if headerIncluded then drop 1 matrix else matrix in
  map (fun row =>
         fold_left (fun record '(index, col) => obj_set col (nullish (row !! index) VNull) record)
                   (zip (seq 0 (length columns)) columns) empty_object)
      dataRows.

Definition needs_quoting (text : string) : bool :=
  string_existsb (fun a => Ascii.eqb a dquote || Ascii.eqb a "," || Ascii.eqb a LF) text.

(** The global replace of [rowsToCsv]: every double quote is doubled. *)
Fixpoint double_quotes (text : string) : string :=
  match text with
  | EmptyString => EmptyString
  | String a rest =>
      if Ascii.eqb a dquote then String dquote (String dquote (double_quotes rest))
      else String a (double_quotes rest)
  end.

Definition quoted (text : string) : string :=
  String dquote (double_quotes text +:+ String dquote EmptyString).

Definition rowsToCsv (columns : list string) (rows : list object) : string :=
  if (length columns =? 0)%nat then EmptyString
  else
    let header := String.concat "," columns in
    let lines :=
      map (fun row =>
             String.concat ","
               (map (fun column =>
                       match obj_get column row with
                       | VNull | VUndefined => EmptyString
                       | VNumber text => text
                       | VBigInt n => Number_toString n
                       | VDate iso _ => iso
                       | v =>
                           let text := String_of v in
                           if needs_quoting text then quoted text else text
                       end)
                    columns))
          rows in
    String.concat newline (header :: lines).

Definition emptyProcessedSheet (name : string) : ProcessedSheet.t :=
  {| ProcessedSheet.name := name;
     ProcessedSheet.columns := [];
     ProcessedSheet.rows := [];
     ProcessedSheet.csv := EmptyString |}.

Definition processSheet (sheet : ParsedSheet.t) (selection : option SheetSelection)
  : ProcessedSheet.t :=
  let trimmedRange := trim <$> (selection ≫= range) in
  let targetMatrix :=
    extractRangeMatrix (ParsedSheet.matrix sheet)
      (match trimmedRange with
       | Some EmptyString | None => None
       | Some t => Some t
       end) in
  if (length targetMatrix =? 0)%nat then emptyProcessedSheet (ParsedSheet.name sheet)
  else
    let headerIncluded :=
      match selection ≫= firstRowIsHeader with
      | Some false => false
      | _ => true
      end in
    let width := fold_left (fun max row => Nat.max max (length row)) targetMatrix 0%nat in
    if (width =? 0)%nat then emptyProcessedSheet (ParsedSheet.name sheet)
    else
      let headerRow := default [] (targetMatrix !! 0%nat) in
      let columns :=
        if headerIncluded then buildColumnsFromHeaderRow headerRow width
        else buildGeneratedColumns width in
      let rows := matrixToRows targetMatrix columns headerIncluded in
      let csv := rowsToCsv columns rows in
      {| ProcessedSheet.name := ParsedSheet.name sheet;
         ProcessedSheet.columns := columns;
         ProcessedSheet.rows := rows;
         ProcessedSheet.csv := csv |}.

Definition applySelection (workbook : ParsedWorkbook.t) (config : WorkbookSelectionConfig)
  : ProcessedWorkbook.t :=
  let sheets :=
    map (fun sheet =>
           let selection := config_sheets config ≫= (.!! ParsedSheet.name sheet) in
           processSheet sheet selection)
        (ParsedWorkbook.sheets workbook) in
  {| ProcessedWorkbook.fileName := ParsedWorkbook.fileName workbook;
     ProcessedWorkbook.sheets := sheets |}.

End Applier.

(** ** Workbook parser: header and CSV helpers (src/lib/excel.ts) *)

(** What [normaliseHeaderRow] reads of a [WorkSheet]: the declared extent
    [sheet["!ref"]] and the rows [utils.sheet_to_json(sheet, { header: 1, defval: "" })]. *)
Record WorkSheet := { ref : option string; header_rows : list (list value) }.

(** [None] when [utils.decode_range] throws on the declared extent. *)
Definition normaliseHeaderRow (decode_range : string -> option xlsx.Range) (sheet : WorkSheet)
  : option (list string) :=
  let columns_for (width : option Z) :=
    let firstRow := default [] (header_rows sheet !! 0%nat) in
    let finalWidth := default (Z.of_nat (length firstRow)) width in
    map (fun index =>
           let raw := firstRow !! index in
           let value :=
             match raw with
             | Some (VString s) => trim s
             | _ => trim (String_of (nullish raw (VString EmptyString)))
             end in
           if (0 <? String.length value)%nat then value else fallback_column index)
        (seq 0 (Z.to_nat finalWidth)) in
  match ref sheet with
  | None | Some EmptyString => Some (columns_for None)
  | Some declared =>
      match decode_range declared with
      | Some range =>
          Some (columns_for (Some (xlsx.c (xlsx.e range) - xlsx.c (xlsx.s range) + 1)))
      | None => None
      end
  end.

Definition serialiseValue (value : value) : string :=
  match value with
  | VNull | VUndefined => EmptyString
  | VNumber text => text
  | VBigInt n => Number_toString n
  | VDate iso _ => iso
  | v =>
      let text := String_of v in
      if needs_quoting text then quoted text else text
  end.

Definition buildCsv (columns : list string) (rows : list object) : string :=
  let header := String.concat "," (map (fun column => serialiseValue (VString column)) columns) in
  let dataRows :=
    map (fun row => String.concat "," (map (fun column => serialiseValue (obj_get column row)) columns))
        rows in
  String.concat newline (header :: dataRows).

(** ** Table registry (src/App.tsx, src/lib/duckdb.ts) *)

(** The result of an asynchronous call: the promise resolves or rejects. *)
Inductive outcome (A : Type) :=
  | Returned (a : A)
  | Thrown (message : string).
Arguments Returned {A} a.
Arguments Thrown {A} message.

(** [fileName.replace(/\.[^/.]+$/, "")]: the text from the first dot that is
    followed, up to the end, by one or more characters other than dot and
    slash is removed. *)
Fixpoint strip_extension (fileName : string) : string :=
  match fileName with
  | EmptyString => EmptyString
  | String a rest =>
      if Ascii.eqb a "." && negb (is_empty rest)
         && string_forallb (fun b => negb (Ascii.eqb b "." || Ascii.eqb b "/")) rest
      then EmptyString
      else String a (strip_extension rest)
  end.

(** [toLowerCase] on the code units 0..255. *)
Definition lower_char (a : ascii) : ascii :=
  let n := charCode a in
  if ((65 <=? n) && (n <=? 90)) || ((192 <=? n) && (n <=? 222) && negb (n =? 215))
  then fromCharCode (n + 32) else a.

Fixpoint toLowerCase (text : string) : string :=
  match text with
  | EmptyString => EmptyString
  | String a rest => String (lower_char a) (toLowerCase rest)
  end.

Definition is_lower_alnum (a : ascii) : bool :=
  let n := charCode a in
  ((97 <=? n) && (n <=? 122)) || ((48 <=? n) && (n <=? 57)).

(** [replace(/[^a-z0-9]+/g, "_")]; [in_run] says that the previous character
    was already replaced. *)
Fixpoint collapse_non_alnum (in_run : bool) (text : string) : string :=
  match text with
  | EmptyString => EmptyString
  | String a rest =>
      if is_lower_alnum a then String a (collapse_non_alnum false rest)
      else if in_run then collapse_non_alnum true rest
      else String "_" (collapse_non_alnum true rest)
  end.

Fixpoint strip_leading_underscores (text : string) : string :=
  match text with
  | EmptyString => EmptyString
  | String a rest => if Ascii.eqb a "_" then strip_leading_underscores rest else text
  end.

Fixpoint strip_trailing_underscores (text : string) : string :=
  match text with
  | EmptyString => EmptyString
  | String a rest =>
      let t := strip_trailing_underscores rest in
      if Ascii.eqb a "_" && is_empty t then EmptyString else String a t
  end.

Definition normaliseTableName (fileName sheetName : string) (index : nat) : string :=
  let positional := "sheet_" +:+ Number_toString (Z.of_nat index + 1) in
  let baseName :=
    strip_trailing_underscores
      (strip_leading_underscores
         (collapse_non_alnum false
            (toLowerCase
               (strip_extension fileName +:+ "_"
                  +:+ (if is_empty sheetName then positional else sheetName))))) in
  if (0 <? String.length baseName)%nat then baseName else positional.

(** [newMap[sheetName] = tableName] on a [SheetTableMapping]: a string stored
    under [__proto__] reaches the accessor of [Object.prototype], which
    ignores it. *)
Definition mapping_set (sheetName tableName : string) (m : gmap string string)
  : gmap string string :=
  if decide (sheetName = "__proto__") then m else <[sheetName := tableName]> m.

(** What a run of [syncTablesWithProcessed] does: the tables it asks the
    engine to drop (not awaited), its calls of [registerCsvAsTable] in order
    (table name, CSV text), what the promise settles to, and the table map
    of the component afterwards. *)
Record SyncRun := {
  dropped : list string;
  registered : list (string * string);
  result : outcome (gmap string string);
  tableMap : gmap string string
}.

Section Registry.

(** The engine's part of [registerCsvAsTable] (registerFileText, DROP TABLE
    IF EXISTS, CREATE TABLE ... read_csv_auto): it succeeds or throws. *)
Variable engine_create : string -> string -> outcome unit.

Definition registerCsvAsTable (tableName csv : string) : outcome unit :=
  if is_empty csv || (String.length (trim csv) =? 0)%nat
  then Thrown ("Cannot register empty CSV for table " +:+ String dquote tableName
                 +:+ String dquote EmptyString)
  else engine_create tableName csv.

(** The [for ... of processed.sheets.entries()] loop. *)
Fixpoint sync_loop (fileName : string) (entries : list (nat * ProcessedSheet.t))
    (newMap : gmap string string) (calls : list (string * string))
  : list (string * string) * outcome (gmap string string) :=
  match entries with
  | [] => (calls, Returned newMap)
  | (index, sheet) :: rest =>
      if (length (ProcessedSheet.rows sheet) =? 0)%nat
         || (length (ProcessedSheet.columns sheet) =? 0)%nat
      then sync_loop fileName rest newMap calls
      else
        let tableName := normaliseTableName fileName (ProcessedSheet.name sheet) index in
        let calls' := calls ++ [(tableName, ProcessedSheet.csv sheet)] in
        match registerCsvAsTable tableName (ProcessedSheet.csv sheet) with
        | Returned _ =>
            sync_loop fileName rest (mapping_set (ProcessedSheet.name sheet) tableName newMap) calls'
        | Thrown err => (calls', Thrown err)
        end
  end.

Definition syncTablesWithProcessed (prevTableMap : gmap string string)
    (processed : ProcessedWorkbook.t) : SyncRun :=
  let previousTables := (map_to_list prevTableMap).*2 in
  let '(calls, settled) :=
    sync_loop (ProcessedWorkbook.fileName processed)
      (zip (seq 0 (length (ProcessedWorkbook.sheets processed))) (ProcessedWorkbook.sheets processed))
      ∅ [] in
  {| dropped := previousTables;
     registered := calls;
     result := settled;
     tableMap := match settled with Returned newMap => newMap | Thrown _ => prevTableMap end |}.

End Registry.

(** ** Suggestion service (src/lib/azure-openai.ts) *)

Record AzureOpenAIConfig := {
  endpoint : string;
  apiKey : string;
  deployment : string;
  apiVersion : string
}.

(** [role] is "system", "user" or "assistant". *)
Record ChatMessage := { role : string; content : string }.

(** [ChatCompletionResponse]: each choice's message. *)
Record ChatCompletionResponse := { choices : list ChatMessage }.

(** The request [chatWithAzureOpenAI] posts; its body also carries the
    constants [temperature: 0.7] and [max_tokens: 1000]. *)
Record ChatRequest := {
  request_url : string;
  request_api_key : string;
  request_messages : list ChatMessage
}.

(** What the code reads of a fetch [Response] whose body parses to a [Body]. *)
Module Response.
Record t (Body : Type) := {
  ok : bool;
  status : Z;
  text : outcome string;
  json : outcome Body
}.
Arguments ok {Body} _.
Arguments status {Body} _.
Arguments text {Body} _.
Arguments json {Body} _.
End Response.

Record QuerySuggestion (V : Type) := { query : V; explanation : V }.
Arguments query {V} _.
Arguments explanation {V} _.

(** A value [JSON.parse] yields. A number is carried by its text and by
    whether it is zero (the one falsy number a parse can yield). *)
#[warnings="-register-all"]
Inductive json :=
  | JNull
  | JBoolean (b : bool)
  | JNumber (text : string) (zero : bool)
  | JString (s : string)
  | JArray (items : list json)
  | JObject (members : list (string * json)).

Fixpoint assoc (key : string) (members : list (string * json)) : option json :=
  match members with
  | [] => None
  | (k, v) :: rest => if String.eqb k key then Some v else assoc key rest
  end.

(** [parsed[key]] for a key that no prototype defines: [None] is the
    TypeError of reading a property of null, [Some None] is [undefined]. *)
Definition json_get (key : string) (parsed : json) : option (option json) :=
  match parsed with
  | JNull => None
  | JObject members => Some (assoc key members)
  | _ => Some None
  end.

Definition truthy (v : json) : bool :=
  match v with
  | JNull => false
  | JBoolean b => b
  | JNumber _ zero => negb zero
  | JString s => negb (is_empty s)
  | JArray _ | JObject _ => true
  end.

(** [v || ""]. *)
Definition or_empty (v : option json) : json :=
  match v with
  | Some v' => if truthy v' then v' else JString EmptyString
  | None => JString EmptyString
  end.

(** The longest prefix that ends with a closing brace. *)
Fixpoint upto_last_brace (text : string) : option string :=
  match text with
  | EmptyString => None
  | String a rest =>
      match upto_last_brace rest with
      | Some t => Some (String a t)
      | None => if Ascii.eqb a "}" then Some (String a EmptyString) else None
      end
  end.

(** [response.match(/\{[\s\S]*\}/)]: from the first opening brace to the last
    closing brace after it. *)
Fixpoint match_json (response : string) : option string :=
  match response with
  | EmptyString => None
  | String a rest =>
      if Ascii.eqb a "{" then String a <$> upto_last_brace rest
      else match_json rest
  end.

(** The shortest prefix that ends with a semicolon. *)
Fixpoint upto_first_semicolon (text : string) : option string :=
  match text with
  | EmptyString => None
  | String a rest =>
      if Ascii.eqb a ";" then Some (String a EmptyString)
      else String a <$> upto_first_semicolon rest
  end.

(** The case folding of the [i] flag, as far as the ASCII letters of the
    pattern can tell: a-z fold to A-Z, and no other code unit folds to an
    ASCII letter. *)
Definition upper_char (a : ascii) : ascii :=
  let n := charCode a in
  if (97 <=? n) && (n <=? 122) then fromCharCode (n - 32) else a.

(** Does [text] start with [word], letter case ignored? The rest follows. *)
Fixpoint after_prefix_ignoring_case (word text : string) : option string :=
  match word, text with
  | EmptyString, _ => Some text
  | String w word', String a text' =>
      if Ascii.eqb (upper_char w) (upper_char a) then after_prefix_ignoring_case word' text'
      else None
  | String _ _, EmptyString => None
  end.

(** [response.match(/SELECT[\s\S]*?;/i)]: from the first SELECT (in any letter
    case) that a semicolon follows, up to the first semicolon after it. *)
Fixpoint match_select (response : string) : option string :=
  match response with
  | EmptyString => None
  | String a rest =>
      match after_prefix_ignoring_case "SELECT" response ≫= upto_first_semicolon with
      | Some tail => Some (String.substring 0 6 response +:+ tail)
      | None => match_select rest
      end
  end.

Definition MISSING_CONFIGURATION : string :=
  "Missing required environment variables for Azure OpenAI." +:+ newline
  +:+ "Please copy .env.example to .env and fill in your Azure OpenAI credentials.".

(** [loadConfig]: [config] is the module's cached configuration and
    [fetched] what [fetch("/api/config")] settles to, its body read as
    [data.azureOpenAI] ([None] when absent; an absent field of it is the
    empty string, which is as falsy). The new cache comes first. *)
Definition loadConfig (config : option AzureOpenAIConfig)
    (fetched : outcome (Response.t (option AzureOpenAIConfig)))
  : option AzureOpenAIConfig * outcome AzureOpenAIConfig :=
  match config with
  | Some cached => (config, Returned cached)
  | None =>
      match fetched with
      | Returned response =>
          if negb (Response.ok response) then (None, Thrown MISSING_CONFIGURATION)
          else
            match Response.json response with
            | Returned data =>
                match data with
                | Some cfg =>
                    if is_empty (endpoint cfg) || is_empty (apiKey cfg)
                       || is_empty (deployment cfg) || is_empty (apiVersion cfg)
                    then (data, Thrown MISSING_CONFIGURATION)
                    else (data, Returned cfg)
                | None => (None, Thrown MISSING_CONFIGURATION)
                end
            | Thrown _ => (None, Thrown MISSING_CONFIGURATION)
            end
      | Thrown _ => (None, Thrown MISSING_CONFIGURATION)
      end
  end.

Fixpoint drop_last_char (text : string) : string :=
  match text with
  | EmptyString => EmptyString
  | String a EmptyString => EmptyString
  | String a rest => String a (drop_last_char rest)
  end.

Fixpoint ends_with_slash (text : string) : bool :=
  match text with
  | EmptyString => false
  | String a EmptyString => Ascii.eqb a "/"
  | String _ rest => ends_with_slash rest
  end.

Section Suggestion.

(** The collaborators: the configuration endpoint, the chat completion
    endpoint, and the platform's [JSON.parse] ([None] when it throws) and
    [JSON.stringify] on sample rows. *)
Variable fetch_config : outcome (Response.t (option AzureOpenAIConfig)).
Variable fetch_chat : ChatRequest -> outcome (Response.t ChatCompletionResponse).
Variable JSON_parse : string -> option json.
Variable JSON_stringify : list object -> string.

Definition chatWithAzureOpenAI (config : option AzureOpenAIConfig)
    (messages : list ChatMessage) (systemPrompt : option string) : outcome string :=
  match snd (loadConfig config fetch_config) with
  | Thrown err => Thrown err
  | Returned cfg =>
      let allMessages :=
        match systemPrompt with
        | None | Some EmptyString => messages
        | Some prompt => {| role := "system"; content := prompt |} :: messages
        end in
      let endpoint :=
        if ends_with_slash (endpoint cfg) then drop_last_char (endpoint cfg) else endpoint cfg in
      let url :=
        endpoint +:+ "/openai/deployments/" +:+ deployment cfg
        +:+ "/chat/completions?api-version=" +:+ apiVersion cfg in
      match fetch_chat {| request_url := url;
                          request_api_key := apiKey cfg;
                          request_messages := allMessages |} with
      | Thrown err => Thrown err
      | Returned response =>
          if negb (Response.ok response) then
            match Response.text response with
            | Thrown err => Thrown err
            | Returned errorText =>
                Thrown ("Azure OpenAI API error: " +:+ Number_toString (Response.status response)
                          +:+ " - " +:+ errorText)
            end
          else
            match Response.json response with
            | Thrown err => Thrown err
            | Returned data =>
                Returned
                  match choices data !! 0%nat with
                  | Some message =>
                      if is_empty (content message) then "No response from AI"
                      else content message
                  | None => "No response from AI"
                  end
            end
      end
  end.

Definition in_quotes (text : string) : string :=
  String dquote (text +:+ String dquote EmptyString).

Definition systemPrompt_of (schemaInfo : string) : string :=
  String.concat newline [
    "You are a SQL query assistant for DuckDB. You help users write SQL queries based on their Excel data.";
    "";
    schemaInfo;
    "";
    "Your task:";
    "1. Understand the user's question";
    "2. Generate a valid DuckDB SQL query";
    "3. Provide a brief explanation";
    "";
    "Respond in JSON format:";
    "{";
    "  " +:+ in_quotes "query" +:+ ": " +:+ in_quotes "SELECT ..." +:+ ",";
    "  " +:+ in_quotes "explanation" +:+ ": " +:+ in_quotes "This query will...";
    "}";
    "";
    "Important:";
    "- Use double quotes for table names: " +:+ in_quotes "table_name";
    "- DuckDB supports standard SQL and many PostgreSQL features";
    "- Keep queries simple and efficient";
    "- Always LIMIT results to avoid overwhelming the UI"
  ].

(** The part of [getSQLQuerySuggestion] after the reply has arrived. *)
Definition suggestion_of_response (response : string) : QuerySuggestion json :=
  let fallback :=
    {| query := match match_select response with
                | Some sql => JString sql
                | None => JString EmptyString
                end;
       explanation := JString response |} in
  match match_json response with
  | Some jsonText =>
      match JSON_parse jsonText with
      | Some parsed =>
          match json_get "query" parsed, json_get "explanation" parsed with
          | Some q, Some e => {| query := or_empty q; explanation := or_empty e |}
          | _, _ => fallback
          end
      | None => fallback
      end
  | None => fallback
  end.

(** [tableSchemas] lists the entries of the record in property order: table
    name, columns, sample rows. *)
Definition getSQLQuerySuggestion (config : option AzureOpenAIConfig)
    (userQuestion : string) (availableTables : list string)
    (tableSchemas : option (list (string * (list string * list object))))
  : outcome (QuerySuggestion json) :=
  let schemaInfo :=
    match tableSchemas with
    | Some schemas =>
        String.concat (newline +:+ newline)
          (map (fun '(tableName, (columns, sampleRows)) =>
                  "Table: " +:+ tableName +:+ newline
                  +:+ "Columns: " +:+ String.concat ", " columns +:+ newline
                  +:+ "Sample data: " +:+ JSON_stringify (take 2 sampleRows))
               schemas)
    | None => "Available tables: " +:+ String.concat ", " availableTables
    end in
  let systemPrompt := systemPrompt_of schemaInfo in
  let messages := [ {| role := "user"; content := userQuestion |} ] in
  match chatWithAzureOpenAI config messages (Some systemPrompt) with
  | Thrown err => Thrown err
  | Returned response => Returned (suggestion_of_response response)
  end.

End Suggestion.

(** ** Range selector: the drag and its commit (src/components/range-selector.tsx) *)

Module RangeSelector.

(** The component's state that the pointer handlers touch. *)
Record State := { selection : SelectionState; isSelecting : bool }.

Definition initial : State :=
  {| selection := {| start := None; end_ := None |}; isSelecting := false |}.

(** A pointer event on the grid, with the [disabled] prop at that moment. *)
Inductive PointerEvent :=
  | MouseDown (disabled : bool) (row col : Z)
  | MouseEnter (row col : Z)
  | MouseUp.

Definition handleMouseDown (disabled : bool) (row col : Z) (st : State) : State :=
  if disabled then st
  else {| selection := {| start := Some {| row := row; col := col |};
                          end_ := Some {| row := row; col := col |} |};
          isSelecting := true |}.

Definition handleMouseEnter (row col : Z) (st : State) : State :=
  match isSelecting st, start (selection st) with
  | true, Some _ =>
      {| selection := {| start := start (selection st);
                         end_ := Some {| row := row; col := col |} |};
         isSelecting := isSelecting st |}
  | _, _ => st
  end.

Definition handleMouseUp (st : State) : State :=
  {| selection := selection st; isSelecting := false |}.

Definition handle (event : PointerEvent) (st : State) : State :=
  match event with
  | MouseDown disabled row col => handleMouseDown disabled row col st
  | MouseEnter row col => handleMouseEnter row col st
  | MouseUp => handleMouseUp st
  end.

(** The events in order, from the state [st]. *)
Definition run (events : list PointerEvent) (st : State) : State :=
  fold_left (fun st event => handle event st) events st.

(** The effect that commits a finished drag; [isHeader] is the component's
    [firstRowIsHeader] state. [Some] is the config handed to
    [onConfigChange], [None] no notification. *)
Definition commitEffect (st : State) (isHeader : bool)
    (config : WorkbookSelectionConfig) (selectedSheet : string)
  : option WorkbookSelectionConfig :=
  match start (selection st), end_ (selection st), isSelecting st with
  | Some _, Some _, false =>
      let range' := selectionToRange (selection st) in
      let current := config_sheets config ≫= (.!! selectedSheet) in
      let currentRange := default EmptyString (current ≫= range) in
      let currentFirstRowIsHeader := default true (current ≫= firstRowIsHeader) in
      if negb (String.eqb range' currentRange)
         || negb (Bool.eqb isHeader currentFirstRowIsHeader)
      then
        Some {| config_sheets :=
                  Some (<[selectedSheet := {| range := Some range';
                                              firstRowIsHeader := Some isHeader |}]>
                          (default ∅ (config_sheets config))) |}
      else None
  | _, _, _ => None
  end.

(** What every handler keeps: anchor and cursor are set together, and a drag
    in progress has an anchor. *)
Definition drag_invariant (st : State) : Prop :=
  (start (selection st) = None <-> end_ (selection st) = None)
  /\ (isSelecting st = true -> start (selection st) <> None).

(** A press that the grid accepts. *)
Definition is_mouse_down (event : PointerEvent) : bool :=
  match event with MouseDown false _ _ => true | _ => false end.

End RangeSelector.

(** ** Default selection (src/App.tsx) *)

(** [createDefaultSelectionConfig]: an entry of the whole extent with a
    header row under each sheet's name. (A sheet named [__proto__] is stored
    as the prototype of the record, where a lookup of that name finds it all
    the same.) *)
Definition createDefaultSelectionConfig (parsed : ParsedWorkbook.t) : WorkbookSelectionConfig :=
  {| config_sheets :=
       Some (fold_left
               (fun sheetsConfig sheet =>
                  <[ParsedSheet.name sheet :=
                      {| range := Some EmptyString; firstRowIsHeader := Some true |}]> sheetsConfig)
               (ParsedWorkbook.sheets parsed) ∅) |}.

(** The record [matrixToRows] builds from one row. *)
Definition record_of_row (columns : list string) (row : list value) : object :=
  fold_left (fun record '(index, col) => obj_set col (nullish (row !! index) VNull) record)
            (zip (seq 0 (length columns)) columns) empty_object.

(** A character of a table name: a small letter, a digit or the underscore. *)
Definition is_name_char (a : ascii) : bool := is_lower_alnum a || Ascii.eqb a "_".

(** A text that starts with a character other than white space. *)
Definition starts_with_text (text : string) : Prop :=
  match text with
  | String a _ => is_js_space a = false
  | EmptyString => False
  end.

(** ** Chat panel (src/components/chat-bot.tsx) *)

Module ChatBot.

(** A message of the panel; [query] is absent on the user's messages and on
    error messages. *)
Record Message := { role : string; content : json; query : option json }.

Record State := { messages : list Message; input : string; isLoading : bool }.

(** [handleSend], given what [getSQLQuerySuggestion] settles to for the
    question. What that function throws is always an [Error], so the reply
    shows its message. The state is the one after the handler has settled. *)
Definition handleSend (suggest : string -> outcome (QuerySuggestion json)) (st : State) : State :=
  if is_empty (trim (input st)) || isLoading st then st
  else
    let userMessage :=
      {| role := "user"; content := JString (input st); query := None |} in
    let reply :=
      match suggest (input st) with
      | Returned (Build_QuerySuggestion _ suggested explained) =>
          {| role := "assistant"; content := explained; query := Some suggested |}
      | Thrown message =>
          {| role := "assistant";
             content := JString ("Sorry, I encountered an error: " +:+ message);
             query := None |}
      end in
    {| messages := messages st ++ [userMessage] ++ [reply];
       input := EmptyString;
       isLoading := false |}.

End ChatBot.

(** ** Engine handle (src/lib/duckdb.ts) *)

Module DuckDB.

(** The module's two cached promises (set or not), and how often
    [instantiateDuckDB] and [db.connect] have been called. *)
Record State := {
  dbInstancePromise : bool;
  connectionPromise : bool;
  instantiations : nat;
  connects : nat
}.

Definition fresh : State :=
  {| dbInstancePromise := false; connectionPromise := false;
     instantiations := 0; connects := 0 |}.

Section Getters.

(** Whether the promise of [instantiateDuckDB] resolves. *)
Variable instantiates : bool.

Definition getDuckDB (st : State) : State :=
  if dbInstancePromise st then st
  else {| dbInstancePromise := true;
          connectionPromise := connectionPromise st;
          instantiations := S (instantiations st);
          connects := connects st |}.

(** The cached promise awaits [getDuckDB] and then connects. *)
Definition getDuckDBConnection (st : State) : State :=
  if connectionPromise st then st
  else
    let st' := getDuckDB st in
    {| dbInstancePromise := dbInstancePromise st';
       connectionPromise := true;
       instantiations := instantiations st';
       connects := if instantiates then S (connects st') else connects st' |}.

(** The exported functions of the module, with their arguments. *)
Inductive Call :=
  | GetDuckDB
  | GetDuckDBConnection
  | RegisterCsvAsTable (tableName csv : string)
  | RunQuery (query : string)
  | DropTable (tableName : string).

(** What a call does to the handle. [registerCsvAsTable] throws on an empty
    or blank CSV before it reaches a getter; otherwise it awaits the engine
    and, if that resolves, the connection. [runQuery] and [dropTable] await
    the connection. *)
Definition call (c : Call) (st : State) : State :=
  match c with
  | GetDuckDB => getDuckDB st
  | GetDuckDBConnection | RunQuery _ | DropTable _ => getDuckDBConnection st
  | RegisterCsvAsTable _ csv =>
      if is_empty csv || (String.length (trim csv) =? 0)%nat then st
      else if instantiates then getDuckDBConnection (getDuckDB st)
      else getDuckDB st
  end.

(** The calls that get as far as a getter: all but a registration of an
    empty or blank CSV. *)
Definition reaches_getter (c : Call) : bool :=
  match c with
  | RegisterCsvAsTable _ csv => negb (is_empty csv || (String.length (trim csv) =? 0)%nat)
  | _ => true
  end.

Definition run (calls : list Call) (st : State) : State :=
  fold_left (fun st c => call c st) calls st.

(** The counters agree with the cached promises. *)
Definition consistent (st : State) : Prop :=
  instantiations st = (if dbInstancePromise st then 1 else 0)%nat
  /\ connects st = (if connectionPromise st && instantiates then 1 else 0)%nat
  /\ (connectionPromise st = true -> dbInstancePromise st = true).

End Getters.

End DuckDB.

(** ** Notions the statements use *)

(** The width of a matrix: the length of its longest row. *)
Definition max_row_width (matrix : list (list value)) : nat :=
  foldr (fun row width => Nat.max (length row) width) 0%nat matrix.

(** The cell at row [r] and column [c], null where the matrix has none. *)
Definition cell_at (matrix : list (list value)) (r c : Z) : value :=
  nullish (default [] (matrix !! Z.to_nat r) !! Z.to_nat c) VNull.

(** The dense rectangle of cells from [(r0, c0)] to [(r1, c1)], both included. *)
Definition rectangle (matrix : list (list value)) (r0 c0 r1 c1 : Z) : list (list value) :=
  map (fun r => map (fun c => cell_at matrix r c) (seqZ c0 (c1 - c0 + 1))) (seqZ r0 (r1 - r0 + 1)).

(** The trimmed text of a header cell, empty for a blank one. *)
Definition header_text (raw : option value) : string :=
  match raw with
  | Some (VString s) => trim s
  | None | Some VUndefined | Some VNull => EmptyString
  | Some v => trim (String_of v)
  end.

(** A column list names every position by that position's header cell alone:
    the trimmed header text, or the positional fallback when that is empty. *)
Definition named_by_position (headerRow : list value) (columns : list string) : Prop :=
  forall (index : nat) (name : string),
    columns !! index = Some name ->
    name <> EmptyString
    /\ name = (if is_empty (header_text (headerRow !! index))
               then "Column_" +:+ decimal (Z.of_nat index + 1)
               else header_text (headerRow !! index)).

(** The range [processSheet] hands to [extractRangeMatrix]: the trimmed
    range of the selection, or none when that is absent or blank. *)
Definition selected_range (selection : option SheetSelection) : option string :=
  match trim <$> (selection ≫= range) with
  | Some EmptyString | None => None
  | Some t => Some t
  end.

(** A parsed sheet, for the examples: only its name and matrix matter to the
    selection applier. *)
Definition sheet_of (name : string) (matrix : list (list value)) : ParsedSheet.t :=
  {| ParsedSheet.name := name;
     ParsedSheet.columns := [];
     ParsedSheet.rows := [];
     ParsedSheet.csv := EmptyString;
     ParsedSheet.matrix := matrix |}.

(** A processed sheet has data when it has at least one row and one column. *)
Definition has_data (sheet : ProcessedSheet.t) : bool :=
  negb ((length (ProcessedSheet.rows sheet) =? 0)%nat
        || (length (ProcessedSheet.columns sheet) =? 0)%nat).

(** The registrations a complete sync makes: one per sheet with data, in
    the order of the sheets. *)
Definition registrations_due (fileName : string) (entries : list (nat * ProcessedSheet.t))
  : list (string * string) :=
  map (fun '(index, sheet) =>
         (normaliseTableName fileName (ProcessedSheet.name sheet) index, ProcessedSheet.csv sheet))
      (List.filter (fun '(_, sheet) => has_data sheet) entries).

(** The JSON value a reply holds, if any: the text between its first opening
    and its last closing brace, parsed; a parse that fails, or that yields
    null (whose fields cannot be read), counts as none. *)
Definition json_reply (JSON_parse : string -> option json) (response : string) : option json :=
  match match_json response ≫= JSON_parse with
  | Some JNull | None => None
  | Some parsed => Some parsed
  end.

(** The field of a parsed value, [None] when it has none of that name. *)
Definition json_field (key : string) (parsed : json) : option json :=
  match parsed with
  | JObject members => assoc key members
  | _ => None
  end.

(** Does the text hold the character? *)
Definition has_char (a : ascii) (text : string) : bool :=
  string_existsb (fun b => Ascii.eqb b a) text.

(** The text with its letters a-z in upper case. *)
Fixpoint upper_text (text : string) : string :=
  match text with
  | EmptyString => EmptyString
  | String a rest => String (upper_char a) (upper_text rest)
  end.

(** * Properties *)

(** Closed statements about concrete inputs are settled by evaluation. *)
Ltac by_evaluation := vm_compute; repeat split; reflexivity.

(** ** Characters *)

Lemma charCode_fromCharCode (z : Z) : 0 <= z < 256 -> charCode (fromCharCode z) = z.
Proof.
  intros Hz. unfold charCode, fromCharCode.
  rewrite N_ascii_embedding by lia. lia.
Qed.

Lemma charCode_digit_char (d : Z) : 0 <= d < 10 -> charCode (digit_char d) = 48 + d.
Proof. intros Hd. unfold digit_char. apply charCode_fromCharCode. lia. Qed.

Lemma is_digit_digit_char (d : Z) : 0 <= d < 10 -> xlsx.is_digit (digit_char d) = true.
Proof.
  intros Hd. unfold xlsx.is_digit. rewrite charCode_digit_char by done.
  apply andb_true_intro. split; apply Z.leb_le; lia.
Qed.

Lemma is_upper_letter (k : Z) : 0 <= k < 26 -> xlsx.is_upper (fromCharCode (65 + k)) = true.
Proof.
  intros Hk. unfold xlsx.is_upper. rewrite charCode_fromCharCode by lia.
  apply andb_true_intro. split; apply Z.leb_le; lia.
Qed.

Lemma is_digit_not_upper (a : ascii) : xlsx.is_digit a = true -> xlsx.is_upper a = false.
Proof.
  unfold xlsx.is_digit, xlsx.is_upper. intros [H1 H2]%andb_prop.
  apply Z.leb_le in H1, H2. apply andb_false_intro1. apply Z.leb_gt. lia.
Qed.

Lemma is_digit_not_colon (a : ascii) : xlsx.is_digit a = true -> Ascii.eqb a ":" = false.
Proof.
  intros H. destruct (Ascii.eqb_spec a ":") as [->|]; [|done].
  vm_compute in H. discriminate.
Qed.

Lemma is_upper_not_colon (a : ascii) : xlsx.is_upper a = true -> Ascii.eqb a ":" = false.
Proof.
  intros H. destruct (Ascii.eqb_spec a ":") as [->|]; [|done].
  vm_compute in H. discriminate.
Qed.

(** ** Decimal text *)

Section Decimal.

Implicit Types (n acc : Z) (fuel : nat) (rest : string).

(** With enough fuel the digits written before [rest] read back as [n]. *)
Lemma decimal_go_fuel fuel n rest :
  0 <= n < 10 * 2 ^ Z.of_nat fuel ->
  xlsx.digits_value 0 (decimal_go fuel n rest) = xlsx.digits_value n rest.
Proof.
  revert n rest. induction fuel as [|fuel IH]; intros n rest Hn.
  - simpl in *. rewrite charCode_digit_char by (apply Z.mod_pos_bound; lia).
    rewrite Z.mod_small by lia. f_equal. lia.
  - simpl decimal_go. destruct (Z.ltb_spec n 10) as [Hlt|Hge].
    + simpl. rewrite charCode_digit_char by (apply Z.mod_pos_bound; lia).
      rewrite Z.mod_small by lia. f_equal. lia.
    + rewrite IH.
      * simpl. rewrite charCode_digit_char by (apply Z.mod_pos_bound; lia).
        f_equal. pose proof (Z.div_mod n 10). lia.
      * rewrite Nat2Z.inj_succ, Z.pow_succ_r in Hn by lia.
        split; [apply Z.div_pos; lia|].
        apply Z.div_lt_upper_bound; lia.
Qed.

Lemma decimal_go_digits fuel n rest :
  string_forallb xlsx.is_digit (decimal_go fuel n rest) = string_forallb xlsx.is_digit rest.
Proof.
  revert n rest. induction fuel as [|fuel IH]; intros n rest; simpl.
  - rewrite is_digit_digit_char by (apply Z.mod_pos_bound; lia). done.
  - destruct (n <? 10).
    + simpl. rewrite is_digit_digit_char by (apply Z.mod_pos_bound; lia). done.
    + rewrite IH. simpl. rewrite is_digit_digit_char by (apply Z.mod_pos_bound; lia). done.
Qed.

Lemma decimal_go_nonempty fuel n rest : is_empty (decimal_go fuel n rest) = false.
Proof.
  revert n rest. induction fuel as [|fuel IH]; intros n rest; simpl; [done|].
  destruct (n <? 10); [done|apply IH].
Qed.

Lemma log2_fuel n : 0 <= n -> n < 10 * 2 ^ Z.of_nat (Z.to_nat (Z.log2 n)).
Proof.
  intros Hn. rewrite Z2Nat.id by apply Z.log2_nonneg.
  destruct (Z.eq_dec n 0) as [->|Hne]; [simpl; lia|].
  pose proof (Z.log2_spec n ltac:(lia)) as [_ Hup].
  rewrite Z.pow_succ_r in Hup by apply Z.log2_nonneg. lia.
Qed.

Lemma decimal_value n : 0 <= n -> xlsx.digits_value 0 (decimal n) = n.
Proof.
  intros Hn. unfold decimal. rewrite decimal_go_fuel; [done|].
  split; [done|by apply log2_fuel].
Qed.

Lemma decimal_digits n : string_forallb xlsx.is_digit (decimal n) = true.
Proof. unfold decimal. by rewrite decimal_go_digits. Qed.

Lemma decimal_nonempty n : is_empty (decimal n) = false.
Proof. apply decimal_go_nonempty. Qed.

End Decimal.

(** ** Column letters *)

Section ColumnLetters.

Implicit Types (c : Z) (fuel : nat) (rest : string).

(** With enough turns the letters written before [rest] read back, in
    bijective base 26, as [c + 1]. *)
Lemma colName_loop_fuel fuel c rest :
  -1 <= c -> c + 1 < 2 ^ Z.of_nat fuel ->
  xlsx.letters_value 0 (colName_loop fuel c rest) = xlsx.letters_value (c + 1) rest.
Proof.
  revert c rest. induction fuel as [|fuel IH]; intros c rest Hc Hfuel.
  - simpl in *. by replace c with (-1) by lia.
  - simpl colName_loop. destruct (Z.leb_spec 0 c) as [Hge|Hlt].
    + rewrite Nat2Z.inj_succ, Z.pow_succ_r in Hfuel by lia.
      pose proof (Z.div_mod c 26 ltac:(lia)) as Hdm.
      pose proof (Z.mod_pos_bound c 26 ltac:(lia)) as Hm.
      assert (0 <= c / 26) by (apply Z.div_pos; lia).
      rewrite IH by lia.
      simpl. rewrite charCode_fromCharCode by lia. f_equal. lia.
    + by replace c with (-1) by lia.
Qed.

Lemma colName_loop_upper fuel c rest :
  string_forallb xlsx.is_upper (colName_loop fuel c rest) = string_forallb xlsx.is_upper rest.
Proof.
  revert c rest. induction fuel as [|fuel IH]; intros c rest; simpl; [done|].
  destruct (0 <=? c); [|done].
  rewrite IH. simpl.
  by rewrite is_upper_letter by (apply Z.mod_pos_bound; lia).
Qed.

Lemma colName_loop_nonempty fuel c rest :
  0 <= c -> is_empty (colName_loop (S fuel) c rest) = false.
Proof.
  intros Hc. simpl. destruct (Z.leb_spec 0 c); [|lia].
  generalize (c / 26 - 1) (fromCharCode (65 + c mod 26)). clear.
  revert rest. induction fuel as [|fuel IH]; intros rest c a; simpl; [done|].
  destruct (0 <=? c); [apply IH|done].
Qed.

Lemma colName_of_value c : 0 <= c -> xlsx.letters_value 0 (colName_of c) = c + 1.
Proof.
  intros Hc. unfold colName_of. rewrite colName_loop_fuel; [done|lia|].
  rewrite Nat2Z.inj_add, Z2Nat.id by apply Z.log2_nonneg.
  rewrite Z.pow_add_r by (try apply Z.log2_nonneg; lia).
  destruct (Z.eq_dec c 0) as [->|Hne]; [simpl; lia|].
  pose proof (Z.log2_spec c ltac:(lia)) as [_ Hup].
  rewrite Z.pow_succ_r in Hup by apply Z.log2_nonneg.
  change (2 ^ Z.of_nat 2) with 4. lia.
Qed.

Lemma colName_of_upper c : string_forallb xlsx.is_upper (colName_of c) = true.
Proof. unfold colName_of. by rewrite colName_loop_upper. Qed.

Lemma colName_of_nonempty c : 0 <= c -> is_empty (colName_of c) = false.
Proof.
  intros Hc. unfold colName_of. rewrite Nat.add_comm. by apply colName_loop_nonempty.
Qed.

End ColumnLetters.

(** ** Decoding what the range selector writes *)

Section Decoding.

Implicit Types (letters digits cell : string).

Lemma take_upper_app letters digits :
  string_forallb xlsx.is_upper letters = true ->
  string_forallb xlsx.is_digit digits = true ->
  xlsx.take_upper (letters +:+ digits) = letters.
Proof.
  intros Hl Hd. induction letters as [|a letters IH]; simpl in *.
  - destruct digits as [|d digits]; [done|]. simpl in *.
    apply andb_prop in Hd as [Hd _]. by rewrite (is_digit_not_upper d).
  - apply andb_prop in Hl as [-> Hl]. by rewrite IH.
Qed.

Lemma drop_upper_app letters digits :
  string_forallb xlsx.is_upper letters = true ->
  string_forallb xlsx.is_digit digits = true ->
  xlsx.drop_upper (letters +:+ digits) = digits.
Proof.
  intros Hl Hd. induction letters as [|a letters IH]; simpl in *.
  - destruct digits as [|d digits]; [done|]. simpl in *.
    apply andb_prop in Hd as [Hd _]. by rewrite (is_digit_not_upper d).
  - apply andb_prop in Hl as [-> Hl]. by rewrite IH.
Qed.

(** [decode_cell] inverts [cellToExcelNotation] on the whole grid. *)
Lemma decode_cell_cellToExcelNotation (row col : Z) :
  0 <= row -> 0 <= col ->
  xlsx.decode_cell (cellToExcelNotation row col) = Some {| xlsx.r := row; xlsx.c := col |}.
Proof.
  intros Hrow Hcol. unfold xlsx.decode_cell, cellToExcelNotation, Number_toString.
  destruct (Z.ltb_spec (row + 1) 0); [lia|].
  rewrite take_upper_app, drop_upper_app
    by (apply colName_of_upper || apply decimal_digits).
  rewrite colName_of_nonempty, decimal_nonempty, decimal_digits by done.
  rewrite decimal_value, colName_of_value by lia.
  destruct (Z.leb_spec 1 (row + 1)); [|lia].
  simpl. do 2 f_equal; lia.
Qed.

Lemma string_existsb_app (p : ascii -> bool) (s1 s2 : string) :
  string_existsb p (s1 +:+ s2) = string_existsb p s1 || string_existsb p s2.
Proof. induction s1 as [|a s1 IH]; simpl; [done|]. by rewrite IH, orb_assoc. Qed.

Lemma string_existsb_none (p q : ascii -> bool) (s : string) :
  (forall a, q a = true -> p a = false) ->
  string_forallb q s = true -> string_existsb p s = false.
Proof.
  intros Hpq. induction s as [|a s IH]; simpl; [done|].
  intros [Ha Hs]%andb_prop. by rewrite (Hpq a Ha), IH.
Qed.

Lemma cellToExcelNotation_no_colon (row col : Z) :
  0 <= row ->
  string_existsb (fun a => Ascii.eqb a ":") (cellToExcelNotation row col) = false.
Proof.
  intros Hrow. unfold cellToExcelNotation, Number_toString.
  destruct (Z.ltb_spec (row + 1) 0); [lia|].
  rewrite string_existsb_app.
  rewrite (string_existsb_none _ _ _ is_upper_not_colon (colName_of_upper col)).
  by rewrite (string_existsb_none _ _ _ is_digit_not_colon (decimal_digits (row + 1))).
Qed.

Lemma split_colon_app (first last : string) :
  string_existsb (fun a => Ascii.eqb a ":") first = false ->
  xlsx.split_colon (first +:+ ":" +:+ last) = Some (first, last).
Proof.
  intros Hfirst. induction first as [|a first IH]; simpl in *; [done|].
  apply orb_false_elim in Hfirst as [-> Hfirst]. by rewrite IH.
Qed.

(** The range that [selectionToRange] writes decodes to the rectangle's
    top-left and bottom-right corners. *)
Lemma decode_range_selectionToRange (a b : CellPosition) :
  0 <= row a -> 0 <= col a -> 0 <= row b -> 0 <= col b ->
  xlsx.decode_range (selectionToRange {| start := Some a; end_ := Some b |}) =
  Some {| xlsx.s := {| xlsx.r := Z.min (row a) (row b); xlsx.c := Z.min (col a) (col b) |};
          xlsx.e := {| xlsx.r := Z.max (row a) (row b); xlsx.c := Z.max (col a) (col b) |} |}.
Proof.
  intros Hra Hca Hrb Hcb. unfold xlsx.decode_range, selectionToRange. simpl.
  rewrite split_colon_app by (apply cellToExcelNotation_no_colon; lia).
  by rewrite !decode_cell_cellToExcelNotation by lia.
Qed.

(** X1. Two cells of the grid that get the same reference are the same
    cell: distinct cells have distinct references. *)
Lemma cellToExcelNotation_injective (row col row' col' : Z) :
  0 <= row -> 0 <= col -> 0 <= row' -> 0 <= col' ->
  cellToExcelNotation row col = cellToExcelNotation row' col' ->
  row = row' /\ col = col'.
Proof.
  intros Hr Hc Hr' Hc' Heq.
  pose proof (decode_cell_cellToExcelNotation row col Hr Hc) as Hdec.
  rewrite Heq, decode_cell_cellToExcelNotation in Hdec by done.
  by injection Hdec as -> ->.
Qed.

End Decoding.

(** ** Range extraction *)

Section Extraction.

Variable decode_range : string -> option xlsx.Range.

Implicit Types (matrix : list (list value)) (range : string).

Lemma maxCol_fold matrix (acc : Z) :
  -1 <= acc ->
  fold_left (fun acc row => Z.max acc (Z.of_nat (length row) - 1)) matrix acc =
  Z.max acc (Z.of_nat (max_row_width matrix) - 1).
Proof.
  unfold max_row_width. revert acc.
  induction matrix as [|row matrix IH]; intros acc Hacc.
  - simpl. lia.
  - simpl. rewrite IH; lia.
Qed.

(** What [extractRangeMatrix] returns once the range has been decoded: the
    rectangle between the clamped corners. *)
Lemma extractRangeMatrix_decoded matrix range decoded :
  decode_range range = Some decoded -> range <> EmptyString ->
  extractRangeMatrix decode_range matrix (Some range) =
  let maxRow := Z.max 0 (Z.of_nat (length matrix) - 1) in
  let maxCol := Z.max 0 (Z.of_nat (max_row_width matrix) - 1) in
  rectangle matrix
    (clamp (xlsx.r (xlsx.s decoded)) 0 maxRow) (clamp (xlsx.c (xlsx.s decoded)) 0 maxCol)
    (clamp (xlsx.r (xlsx.e decoded)) 0 maxRow) (clamp (xlsx.c (xlsx.e decoded)) 0 maxCol).
Proof.
  intros Hdec Hne. unfold extractRangeMatrix.
  destruct range as [|a range]; [done|]. rewrite Hdec, maxCol_fold by lia.
  replace (if (0 <? length matrix)%nat then Z.of_nat (length matrix) - 1 else 0)
    with (Z.max 0 (Z.of_nat (length matrix) - 1))
    by (destruct (Nat.ltb_spec 0 (length matrix)); lia).
  done.
Qed.

Lemma rectangle_length matrix (r0 c0 r1 c1 : Z) :
  length (rectangle matrix r0 c0 r1 c1) = Z.to_nat (r1 - r0 + 1).
Proof. unfold rectangle. by rewrite length_map, length_seqZ. Qed.

Lemma rectangle_row_length matrix (r0 c0 r1 c1 : Z) :
  Forall (fun row => length row = Z.to_nat (c1 - c0 + 1)) (rectangle matrix r0 c0 r1 c1).
Proof.
  unfold rectangle. apply Forall_map, Forall_forall. intros r _.
  by rewrite length_map, length_seqZ.
Qed.

End Extraction.

Lemma clamp_inside (value min max : Z) : min <= value <= max -> clamp value min max = value.
Proof. unfold clamp. lia. Qed.

Lemma clamp_bounds (value min max : Z) : min <= max -> min <= clamp value min max <= max.
Proof. unfold clamp. lia. Qed.

(** C1. Round trip of a selection: for every pair of corners within the
    bounds of the matrix, the range string that [selectionToRange] writes,
    decoded and clamped by [extractRangeMatrix], yields exactly the rectangle
    the corners span: its rows are the rows [r0..r1] and its columns the
    columns [c0..c1], where [r0], [c0] are the smaller and [r1], [c1] the
    larger coordinates. *)
Theorem selectionToRange_extractRangeMatrix_roundtrip
    (matrix : list (list value)) (a b : CellPosition) :
  0 <= row a < Z.of_nat (length matrix) ->
  0 <= row b < Z.of_nat (length matrix) ->
  0 <= col a < Z.of_nat (max_row_width matrix) ->
  0 <= col b < Z.of_nat (max_row_width matrix) ->
  let r0 := Z.min (row a) (row b) in
  let r1 := Z.max (row a) (row b) in
  let c0 := Z.min (col a) (col b) in
  let c1 := Z.max (col a) (col b) in
  let extracted :=
    extractRangeMatrix xlsx.decode_range matrix
      (Some (selectionToRange {| start := Some a; end_ := Some b |})) in
  extracted = rectangle matrix r0 c0 r1 c1
  /\ length extracted = Z.to_nat (r1 - r0 + 1)
  /\ Forall (fun row => length row = Z.to_nat (c1 - c0 + 1)) extracted.
Proof.
  intros Hra Hrb Hca Hcb r0 r1 c0 c1 extracted.
  assert (extracted = rectangle matrix r0 c0 r1 c1) as ->.
  { subst extracted.
    pose proof (decode_range_selectionToRange a b) as Hdec.
    rewrite (extractRangeMatrix_decoded _ matrix _ _ (Hdec ltac:(lia) ltac:(lia) ltac:(lia) ltac:(lia))).
    - simpl. by rewrite !clamp_inside by lia.
    - intros Heq. rewrite Heq in Hdec. by specialize (Hdec ltac:(lia) ltac:(lia) ltac:(lia) ltac:(lia)). }
  split; [done|]. split; [apply rectangle_length|apply rectangle_row_length].
Qed.

(** A drag from the bottom-right cell C3 to the top-left cell B2 of a 3x3 matrix. *)
Lemma selectionToRange_extractRangeMatrix_roundtrip_witness :
  let matrix :=
    [[VString "a"; VString "b"; VString "c"];
     [VString "d"; VString "e"; VString "f"];
     [VString "g"; VString "h"; VString "i"]] in
  let extracted :=
    extractRangeMatrix xlsx.decode_range matrix
      (Some (selectionToRange {| start := Some {| row := 2; col := 2 |};
                                 end_ := Some {| row := 1; col := 1 |} |})) in
  extracted = rectangle matrix 1 1 2 2
  /\ length extracted = 2%nat
  /\ Forall (fun row => length row = 2%nat) extracted.
Proof.
  apply (selectionToRange_extractRangeMatrix_roundtrip
           [[VString "a"; VString "b"; VString "c"];
            [VString "d"; VString "e"; VString "f"];
            [VString "g"; VString "h"; VString "i"]]
           {| row := 2; col := 2 |} {| row := 1; col := 1 |});
    vm_compute; split; congruence.
Defined.

(** ** Malformed ranges *)

(** C2. A malformed range does not fall back to the whole matrix. The
    package's decoder never throws on a string, so the [catch] of
    [extractRangeMatrix] is not reached: "not a range" holds no digit and no
    capital letter, decodes to row -1 and column -1, and after clamping
    selects the top-left cell alone; "2:1" selects nothing at all. Only the
    absent range gives the whole matrix. *)
Theorem extractRangeMatrix_malformed_range :
  let matrix := [[VString "Name"; VString "Age"]; [VString "Ann"; VNumber "30"]] in
  utils.decode_range "not a range"
  = {| xlsx.s := {| xlsx.r := -1; xlsx.c := -1 |}; xlsx.e := {| xlsx.r := -1; xlsx.c := -1 |} |}
  /\ extractRangeMatrix utils.decode_range_in_try matrix (Some "not a range") = [[VString "Name"]]
  /\ extractRangeMatrix utils.decode_range_in_try matrix (Some "not a range") <> matrix
  /\ extractRangeMatrix utils.decode_range_in_try matrix (Some "2:1") = []
  /\ extractRangeMatrix utils.decode_range_in_try matrix None = matrix.
Proof. vm_compute. repeat split; done. Qed.

(** [processSheet] treats a range on which the decoder throws like no range
    at all. *)
Lemma processSheet_decode_failure
    (decode_range : string -> option xlsx.Range)
    (sheet : ParsedSheet.t) (selection : SheetSelection) (text : string) :
  range selection = Some text ->
  decode_range (trim text) = None ->
  processSheet decode_range sheet (Some selection) =
  processSheet decode_range sheet
    (Some {| range := None; firstRowIsHeader := firstRowIsHeader selection |}).
Proof.
  intros Hrange Hfail. unfold processSheet. simpl. rewrite Hrange. simpl.
  destruct (trim text) as [|a t] eqn:Ht; [done|].
  unfold extractRangeMatrix. by rewrite Hfail.
Qed.

(** ** Column names *)

Lemma length_positive_nonempty (text : string) :
  (0 <? String.length text)%nat = negb (is_empty text).
Proof. by destruct text. Qed.

Lemma fallback_column_spec (index : nat) :
  fallback_column index = "Column_" +:+ decimal (Z.of_nat index + 1).
Proof.
  unfold fallback_column, Number_toString.
  by destruct (Z.ltb_spec (Z.of_nat index + 1) 0); [lia|].
Qed.

Lemma column_choice_nonempty (text : string) (index : nat) :
  (if (0 <? String.length text)%nat then text else fallback_column index) <> EmptyString.
Proof. destruct text; simpl; [rewrite fallback_column_spec|]; discriminate. Qed.

Lemma buildColumnsFromHeaderRow_lookup (headerRow : list value) (width index : nat) (name : string) :
  buildColumnsFromHeaderRow headerRow width !! index = Some name ->
  (index < width)%nat
  /\ name = (if (0 <? String.length (header_text (headerRow !! index)))%nat
             then header_text (headerRow !! index) else fallback_column index).
Proof.
  unfold buildColumnsFromHeaderRow. rewrite list_lookup_fmap.
  intros Hsome. destruct (seq 0 width !! index) as [i|] eqn:Hseq; [|done].
  apply lookup_seq in Hseq as [-> Hlt]. simpl in Hsome. injection Hsome as <-.
  split; [done|]. unfold header_text.
  by destruct (headerRow !! index) as [[]|].
Qed.

(** C3 (as amended). Every column position gets a non-empty name that its
    own header cell decides: the trimmed header text, or [Column_<index + 1>]
    when the header is blank. This holds for [buildColumnsFromHeaderRow] and
    for the parser's [normaliseHeaderRow]. Headers that repeat are kept as
    they are. *)
Theorem columns_named_by_position
    (headerRow : list value) (width : nat)
    (decode_range : string -> option xlsx.Range) (sheet : WorkSheet) :
  (length (buildColumnsFromHeaderRow headerRow width) = width
   /\ named_by_position headerRow (buildColumnsFromHeaderRow headerRow width))
  /\ (forall columns,
        normaliseHeaderRow decode_range sheet = Some columns ->
        named_by_position (default [] (header_rows sheet !! 0%nat)) columns).
Proof.
  split; [split|].
  - unfold buildColumnsFromHeaderRow. by rewrite length_map, length_seq.
  - intros index name [_ ->]%buildColumnsFromHeaderRow_lookup.
    split; [apply column_choice_nonempty|].
    rewrite length_positive_nonempty, fallback_column_spec.
    by destruct (header_text (headerRow !! index)).
  - intros columns Hcolumns index name Hname.
    assert (exists width : nat,
              columns = buildColumnsFromHeaderRow (default [] (header_rows sheet !! 0%nat)) width)
      as [w ->].
    { unfold normaliseHeaderRow in Hcolumns.
      set (firstRow := default [] (header_rows sheet !! 0%nat)) in *.
      assert (forall finalWidth : Z,
                 map (fun index : nat =>
                        let raw := firstRow !! index in
                        let value :=
                          match raw with
                          | Some (VString s) => trim s
                          | _ => trim (String_of (nullish raw (VString EmptyString)))
                          end in
                        if (0 <? String.length value)%nat then value else fallback_column index)
                     (seq 0 (Z.to_nat finalWidth))
                 = buildColumnsFromHeaderRow firstRow (Z.to_nat finalWidth)) as Hsame.
      { intros finalWidth. unfold buildColumnsFromHeaderRow. apply map_ext.
        intros i. by destruct (firstRow !! i) as [[]|]. }
      destruct (ref sheet) as [[|a declared]|].
      - injection Hcolumns as <-. eexists. apply Hsame.
      - destruct (decode_range (String a declared)); [|done].
        injection Hcolumns as <-. eexists. apply Hsame.
      - injection Hcolumns as <-. eexists. apply Hsame. }
    apply buildColumnsFromHeaderRow_lookup in Hname as [_ ->].
    split; [apply column_choice_nonempty|].
    rewrite length_positive_nonempty, fallback_column_spec.
    by destruct (header_text (default [] (header_rows sheet !! 0%nat) !! index)).
Qed.

(** C3 (as stated) fails: two columns headed "id" keep the same name, and a
    literal header may coincide with the fallback name of a blank one. *)
Lemma duplicate_headers_are_kept :
  buildColumnsFromHeaderRow [VString "id"; VString "id"] 2 = ["id"; "id"]
  /\ ~ NoDup (buildColumnsFromHeaderRow [VString "id"; VString "id"] 2)
  /\ buildColumnsFromHeaderRow [VString "Column_2"; VNull] 2 = ["Column_2"; "Column_2"]
  /\ normaliseHeaderRow xlsx.decode_range
       {| ref := Some "A1:B2";
          header_rows := [[VString "id"; VString "id"]; [VNumber "1"; VNumber "2"]] |}
     = Some ["id"; "id"].
Proof.
  split; [reflexivity|]. split; [|split; reflexivity].
  intros Hnodup. change (NoDup ["id"; "id"]) in Hnodup.
  apply NoDup_cons in Hnodup as [Hin _]. apply Hin. by left.
Qed.

(** ** The shape of a processed sheet *)

Section Shape.

Variable decode_range : string -> option xlsx.Range.

Implicit Types (matrix target : list (list value)) (sheet : ParsedSheet.t).

Lemma width_fold matrix (acc : nat) :
  fold_left (fun max row => Nat.max max (length row)) matrix acc =
  Nat.max acc (max_row_width matrix).
Proof.
  revert acc. induction matrix as [|row matrix IH]; intros acc; simpl.
  - lia.
  - rewrite IH. lia.
Qed.

Lemma matrixToRows_length target (columns : list string) (headerIncluded : bool) :
  length (matrixToRows target columns headerIncluded) =
  if headerIncluded then (length target - 1)%nat else length target.
Proof.
  unfold matrixToRows. rewrite length_map.
  destruct headerIncluded; [by rewrite length_drop|done].
Qed.

(** [processSheet] in terms of the selected sub-matrix and its width. *)
Lemma processSheet_unfold sheet (selection : option SheetSelection) :
  let target := extractRangeMatrix decode_range (ParsedSheet.matrix sheet) (selected_range selection) in
  let headerIncluded :=
    match selection ≫= firstRowIsHeader with Some false => false | _ => true end in
  let columns :=
    if headerIncluded
    then buildColumnsFromHeaderRow (default [] (target !! 0%nat)) (max_row_width target)
    else buildGeneratedColumns (max_row_width target) in
  processSheet decode_range sheet selection =
  if (max_row_width target =? 0)%nat then emptyProcessedSheet (ParsedSheet.name sheet)
  else {| ProcessedSheet.name := ParsedSheet.name sheet;
          ProcessedSheet.columns := columns;
          ProcessedSheet.rows := matrixToRows target columns headerIncluded;
          ProcessedSheet.csv := rowsToCsv columns (matrixToRows target columns headerIncluded) |}.
Proof.
  intros target headerIncluded columns. unfold processSheet.
  fold (selected_range selection). fold target. rewrite width_fold, Nat.max_0_l.
  destruct (Nat.eqb_spec (length target) 0) as [Hlen|Hlen]; [|done].
  apply nil_length_inv in Hlen. by rewrite Hlen.
Qed.

Lemma max_row_width_bound target (k : nat) :
  Forall (fun row => length row = k) target -> (max_row_width target <= k)%nat.
Proof. induction 1; simpl; lia. Qed.

(** The selected sub-matrix of a matrix that has a row and a column lies
    within it. *)
Lemma extractRangeMatrix_within matrix (range : option string) :
  (1 <= length matrix)%nat -> (1 <= max_row_width matrix)%nat ->
  (length (extractRangeMatrix decode_range matrix range) <= length matrix)%nat
  /\ (max_row_width (extractRangeMatrix decode_range matrix range) <= max_row_width matrix)%nat.
Proof.
  intros Hrows Hcols.
  destruct range as [range|]; [|done].
  destruct (decide (range = EmptyString)) as [->|Hne]; [done|].
  destruct (decode_range range) as [decoded|] eqn:Hdec.
  - rewrite (extractRangeMatrix_decoded decode_range matrix range decoded Hdec Hne). cbv zeta.
    set (maxRow := Z.max 0 (Z.of_nat (length matrix) - 1)).
    set (maxCol := Z.max 0 (Z.of_nat (max_row_width matrix) - 1)).
    pose proof (clamp_bounds (xlsx.r (xlsx.s decoded)) 0 maxRow ltac:(lia)).
    pose proof (clamp_bounds (xlsx.r (xlsx.e decoded)) 0 maxRow ltac:(lia)).
    pose proof (clamp_bounds (xlsx.c (xlsx.s decoded)) 0 maxCol ltac:(lia)).
    pose proof (clamp_bounds (xlsx.c (xlsx.e decoded)) 0 maxCol ltac:(lia)).
    split.
    + rewrite rectangle_length. lia.
    + etrans; [apply max_row_width_bound, rectangle_row_length|]. lia.
  - unfold extractRangeMatrix. destruct range; [done|]. by rewrite Hdec.
Qed.

(** X7. For a matrix that has at least one row and one column, whatever the
    selection and whatever the decoder returns, the processed sheet has at
    most as many rows as the matrix and at most as many columns as the
    matrix is wide: a range outside the sheet is clamped into it. *)
Lemma processSheet_within sheet (selection : option SheetSelection) :
  (1 <= length (ParsedSheet.matrix sheet))%nat ->
  (1 <= max_row_width (ParsedSheet.matrix sheet))%nat ->
  (length (ProcessedSheet.rows (processSheet decode_range sheet selection))
     <= length (ParsedSheet.matrix sheet))%nat
  /\ (length (ProcessedSheet.columns (processSheet decode_range sheet selection))
      <= max_row_width (ParsedSheet.matrix sheet))%nat.
Proof.
  intros Hrows Hcols. rewrite processSheet_unfold. cbv zeta.
  pose proof (extractRangeMatrix_within (ParsedSheet.matrix sheet) (selected_range selection)
                Hrows Hcols) as [Hr Hc].
  set (target := extractRangeMatrix decode_range _ _) in *.
  destruct (max_row_width target =? 0)%nat; simpl; [lia|].
  rewrite matrixToRows_length. split.
  - destruct (selection ≫= firstRowIsHeader) as [[]|]; lia.
  - destruct (selection ≫= firstRowIsHeader) as [[]|];
      unfold buildColumnsFromHeaderRow, buildGeneratedColumns;
      rewrite length_map, length_seq; lia.
Qed.

End Shape.

(** The second header of [" Name ", null, "Name"] is blank and gets its
    positional name; the third repeats the first and keeps its text. *)
Lemma columns_named_by_position_witness :
  let headerRow := [VString " Name "; VNull; VString "Name"] in
  buildColumnsFromHeaderRow headerRow 3 = ["Name"; "Column_2"; "Name"]
  /\ ("Column_2" <> EmptyString
      /\ "Column_2" = (if is_empty (header_text (headerRow !! 1%nat))
                       then "Column_" +:+ decimal (Z.of_nat 1 + 1)
                       else header_text (headerRow !! 1%nat))).
Proof.
  split; [reflexivity|].
  exact (proj2 (proj1 (columns_named_by_position
                         [VString " Name "; VNull; VString "Name"] 3
                         xlsx.decode_range {| ref := None; header_rows := [] |}))
               1%nat "Column_2" eq_refl).
Defined.

(** ** CSV text *)

(** The two field serialisers agree: [rowsToCsv] writes a data field the way
    [serialiseValue] does. *)
Lemma rowsToCsv_data_lines (columns : list string) (rows : list object) :
  columns <> [] ->
  rowsToCsv columns rows =
  String.concat newline
    (String.concat "," columns
       :: map (fun row => String.concat "," (map (fun column => serialiseValue (obj_get column row)) columns))
              rows).
Proof.
  intros Hne. unfold rowsToCsv. destruct columns as [|column columns]; [done|].
  cbn [length Nat.eqb]. do 2 f_equal. apply map_ext. intros row. f_equal.
  apply map_ext. intros col. unfold serialiseValue. by destruct (obj_get col row).
Qed.

(** C4 at its failing input: a header that holds a comma. [rowsToCsv]
    writes the header line unquoted, so the CSV of the processed sheet has a
    header line of two fields for one column; [buildCsv], the parser's
    serialiser, quotes the same header. *)
Theorem rowsToCsv_header_not_quoted :
  let sheet := sheet_of "Sheet1" [[VString "a,b"]; [VString "x,y"]] in
  let processed := processSheet xlsx.decode_range sheet None in
  ProcessedSheet.columns processed = ["a,b"]
  /\ ProcessedSheet.rows processed = [object_of [("a,b", VString "x,y")]]
  /\ ProcessedSheet.csv processed = "a,b" +:+ newline +:+ in_quotes "x,y"
  /\ buildCsv (ProcessedSheet.columns processed) (ProcessedSheet.rows processed)
     = in_quotes "a,b" +:+ newline +:+ in_quotes "x,y".
Proof. by_evaluation. Qed.

(** ** Counts of a processed sheet *)

(** C5 at its failing input: a sheet with an empty matrix and the range
    A1:A1. The clamp takes row 0 and column 0 for the last row and column of
    the empty matrix, so one cell, null, is extracted: the processed sheet
    has one column, and one row when the first row is not a header. *)
Theorem processSheet_empty_matrix_with_range :
  let sheet := sheet_of "Empty" [] in
  let as_data :=
    processSheet xlsx.decode_range sheet
      (Some {| range := Some "A1:A1"; firstRowIsHeader := Some false |}) in
  let as_header :=
    processSheet xlsx.decode_range sheet
      (Some {| range := Some "A1:A1"; firstRowIsHeader := None |}) in
  extractRangeMatrix xlsx.decode_range [] (Some "A1:A1") = [[VNull]]
  /\ ProcessedSheet.columns as_data = ["Column_1"]
  /\ ProcessedSheet.rows as_data = [object_of [("Column_1", VNull)]]
  /\ ProcessedSheet.columns as_header = ["Column_1"]
  /\ ProcessedSheet.rows as_header = []
  /\ ProcessedSheet.columns (processSheet xlsx.decode_range sheet None) = [].
Proof. by_evaluation. Qed.

(** ** Scenarios *)

(** C6. The matrix [["Name","Age"],["Ann","30"],["Bo","25"]] with the
    config [{range: "", firstRowIsHeader: true}] gives the columns
    ["Name","Age"] and the rows [{Name: "Ann", Age: "30"}, {Name: "Bo", Age: "25"}],
    whatever the sheet's name and whatever decoder is at hand. *)
Theorem processSheet_name_age_scenario
    (decode_range : string -> option xlsx.Range) (name : string) :
  let sheet :=
    sheet_of name
      [[VString "Name"; VString "Age"]; [VString "Ann"; VString "30"]; [VString "Bo"; VString "25"]] in
  let processed :=
    processSheet decode_range sheet
      (Some {| range := Some EmptyString; firstRowIsHeader := Some true |}) in
  ProcessedSheet.columns processed = ["Name"; "Age"]
  /\ ProcessedSheet.rows processed =
       [object_of [("Name", VString "Ann"); ("Age", VString "30")];
        object_of [("Name", VString "Bo"); ("Age", VString "25")]].
Proof. split; vm_compute; reflexivity. Qed.

(** ** Sheets without a header row *)

(** C7 (as amended). With [firstRowIsHeader = false] and a selected
    sub-matrix of width [w >= 1], every row of the sub-matrix is a data row
    (all N rows of the matrix when the selection has no range) and the
    columns are Column_1, ..., Column_w; when [w = 0] the processed sheet
    is empty. *)
Theorem processSheet_without_header
    (decode_range : string -> option xlsx.Range)
    (sheet : ParsedSheet.t) (selection : SheetSelection) :
  firstRowIsHeader selection = Some false ->
  let target :=
    extractRangeMatrix decode_range (ParsedSheet.matrix sheet) (selected_range (Some selection)) in
  let processed := processSheet decode_range sheet (Some selection) in
  (selected_range (Some selection) = None -> target = ParsedSheet.matrix sheet)
  /\ ((1 <= max_row_width target)%nat ->
      length (ProcessedSheet.rows processed) = length target
      /\ ProcessedSheet.columns processed =
           map (fun index : nat => "Column_" +:+ decimal (Z.of_nat index + 1))
               (seq 0 (max_row_width target)))
  /\ (max_row_width target = 0%nat ->
      ProcessedSheet.columns processed = [] /\ ProcessedSheet.rows processed = []).
Proof.
  intros Hflag target processed. split; [|split].
  - intros Hnone. subst target. by rewrite Hnone.
  - intros Hwidth. subst processed. rewrite processSheet_unfold. cbv zeta.
    fold target. simpl. rewrite Hflag.
    destruct (Nat.eqb_spec (max_row_width target) 0) as [|_]; [lia|]. simpl.
    rewrite matrixToRows_length. split; [done|].
    unfold buildGeneratedColumns. apply map_ext. intros index. apply fallback_column_spec.
  - intros Hwidth. subst processed. rewrite processSheet_unfold. cbv zeta.
    fold target. by rewrite Hwidth.
Qed.

(** The second scenario of the specification: the range A2:B3 without a
    header row, on the matrix of the first scenario. *)
Lemma processSheet_without_header_witness :
  let sheet :=
    sheet_of "People"
      [[VString "Name"; VString "Age"]; [VString "Ann"; VString "30"]; [VString "Bo"; VString "25"]] in
  let selection := {| range := Some "A2:B3"; firstRowIsHeader := Some false |} in
  let target :=
    extractRangeMatrix xlsx.decode_range (ParsedSheet.matrix sheet) (selected_range (Some selection)) in
  let processed := processSheet xlsx.decode_range sheet (Some selection) in
  (selected_range (Some selection) = None -> target = ParsedSheet.matrix sheet)
  /\ ((1 <= max_row_width target)%nat ->
      length (ProcessedSheet.rows processed) = length target
      /\ ProcessedSheet.columns processed =
           map (fun index : nat => "Column_" +:+ decimal (Z.of_nat index + 1))
               (seq 0 (max_row_width target)))
  /\ (max_row_width target = 0%nat ->
      ProcessedSheet.columns processed = [] /\ ProcessedSheet.rows processed = []).
Proof.
  apply (processSheet_without_header xlsx.decode_range
           (sheet_of "People"
              [[VString "Name"; VString "Age"]; [VString "Ann"; VString "30"];
               [VString "Bo"; VString "25"]])
           {| range := Some "A2:B3"; firstRowIsHeader := Some false |}).
  reflexivity.
Defined.

Example processSheet_without_header_scenario :
  let processed :=
    processSheet xlsx.decode_range
      (sheet_of "People"
         [[VString "Name"; VString "Age"]; [VString "Ann"; VString "30"]; [VString "Bo"; VString "25"]])
      (Some {| range := Some "A2:B3"; firstRowIsHeader := Some false |}) in
  ProcessedSheet.columns processed = ["Column_1"; "Column_2"]
  /\ ProcessedSheet.rows processed =
       [object_of [("Column_1", VString "Ann"); ("Column_2", VString "30")];
        object_of [("Column_1", VString "Bo"); ("Column_2", VString "25")]].
Proof. split; vm_compute; reflexivity. Qed.

(** C7 (as stated) fails: a matrix of one row that has no cell gives no
    data row. *)
Lemma processSheet_without_header_zero_width :
  let sheet := sheet_of "Blank" [[]] in
  let processed :=
    processSheet xlsx.decode_range sheet
      (Some {| range := None; firstRowIsHeader := Some false |}) in
  length (ParsedSheet.matrix sheet) = 1%nat
  /\ length (ProcessedSheet.rows processed) = 0%nat
  /\ ProcessedSheet.columns processed = [].
Proof. by_evaluation. Qed.

(** ** Table sync *)

Section Sync.

Variable engine_create : string -> string -> outcome unit.

Implicit Types (entries : list (nat * ProcessedSheet.t)) (newMap : gmap string string).

Lemma mapping_set_lookup (sheetName tableName : string) newMap (name table : string) :
  mapping_set sheetName tableName newMap !! name = Some table ->
  (name = sheetName /\ table = tableName) \/ newMap !! name = Some table.
Proof.
  unfold mapping_set. destruct (decide (sheetName = "__proto__")); [by right|].
  destruct (decide (sheetName = name)) as [->|Hne].
  - rewrite lookup_insert_eq. intros [= <-]. by left.
  - rewrite lookup_insert_ne by done. by right.
Qed.

Lemma registrations_due_cons (fileName : string) (index : nat) (sheet : ProcessedSheet.t) entries :
  registrations_due fileName ((index, sheet) :: entries) =
  if has_data sheet
  then (normaliseTableName fileName (ProcessedSheet.name sheet) index, ProcessedSheet.csv sheet)
         :: registrations_due fileName entries
  else registrations_due fileName entries.
Proof. unfold registrations_due. simpl. by destruct (has_data sheet). Qed.

Lemma sync_loop_cons (fileName : string) (index : nat) (sheet : ProcessedSheet.t) entries newMap
    (calls : list (string * string)) :
  sync_loop engine_create fileName ((index, sheet) :: entries) newMap calls =
  if has_data sheet then
    let tableName := normaliseTableName fileName (ProcessedSheet.name sheet) index in
    let calls' := calls ++ [(tableName, ProcessedSheet.csv sheet)] in
    match registerCsvAsTable engine_create tableName (ProcessedSheet.csv sheet) with
    | Returned _ =>
        sync_loop engine_create fileName entries
          (mapping_set (ProcessedSheet.name sheet) tableName newMap) calls'
    | Thrown err => (calls', Thrown err)
    end
  else sync_loop engine_create fileName entries newMap calls.
Proof. unfold has_data. simpl. by destruct (_ || _). Qed.

(** The loop registers the sheets with data, in order, until one fails; a
    map it returns binds only what it was given or what it registered. *)
Lemma sync_loop_spec (fileName : string) entries newMap (calls : list (string * string)) :
  (exists k : nat,
      (sync_loop engine_create fileName entries newMap calls).1
      = calls ++ take k (registrations_due fileName entries))
  /\ (forall settled,
        (sync_loop engine_create fileName entries newMap calls).2 = Returned settled ->
        (sync_loop engine_create fileName entries newMap calls).1
          = calls ++ registrations_due fileName entries
        /\ (forall name table,
              settled !! name = Some table ->
              newMap !! name = Some table
              \/ exists index sheet,
                   (index, sheet) ∈ entries
                   /\ ProcessedSheet.name sheet = name
                   /\ has_data sheet = true
                   /\ table = normaliseTableName fileName name index)).
Proof.
  revert newMap calls.
  induction entries as [|[index sheet] entries IH]; intros newMap calls.
  - simpl. split.
    + exists 0%nat. by rewrite app_nil_r.
    + intros settled [= <-]. split; [by rewrite app_nil_r|]. intros name table ?. by left.
  - rewrite sync_loop_cons, registrations_due_cons.
    destruct (has_data sheet) eqn:Hdata; cbv zeta.
    + set (tableName := normaliseTableName fileName (ProcessedSheet.name sheet) index).
      destruct (registerCsvAsTable engine_create tableName (ProcessedSheet.csv sheet)) as [[]|err].
      * destruct (IH (mapping_set (ProcessedSheet.name sheet) tableName newMap)
                     (calls ++ [(tableName, ProcessedSheet.csv sheet)])) as [[k Hk] Hsettled].
        split.
        -- exists (S k). rewrite Hk. by rewrite <- app_assoc.
        -- intros settled Hret. destruct (Hsettled settled Hret) as [Hcalls Hmap].
           split; [by rewrite Hcalls, <- app_assoc|].
           intros name table Hlookup.
           destruct (Hmap name table Hlookup) as [Hset|(i & sh & Hin & ?)].
           ++ apply mapping_set_lookup in Hset as [[-> ->]|]; [|by left].
              right. exists index, sheet. split; [by apply list_elem_of_here|done].
           ++ right. exists i, sh. split; [by apply list_elem_of_further|done].
      * simpl. split; [by exists 1%nat|]. intros settled [=].
    + destruct (IH newMap calls) as [[k Hk] Hsettled]. split.
      * by exists k.
      * intros settled Hret. destruct (Hsettled settled Hret) as [Hcalls Hmap].
        split; [done|]. intros name table Hlookup.
        destruct (Hmap name table Hlookup) as [|(i & sh & Hin & ?)]; [by left|].
        right. exists i, sh. split; [by apply list_elem_of_further|done].
Qed.

Lemma entries_lookup (sheets : list ProcessedSheet.t) (first index : nat) (sheet : ProcessedSheet.t) :
  (index, sheet) ∈ zip (seq first (length sheets)) sheets ->
  (first <= index)%nat /\ sheets !! (index - first)%nat = Some sheet.
Proof.
  revert first. induction sheets as [|sh sheets IH]; intros first; simpl.
  - by intros ?%elem_of_nil.
  - intros [[= -> ->]|Hin]%elem_of_cons.
    + by rewrite Nat.sub_diag.
    + apply IH in Hin as [Hle Hlookup]. split; [lia|].
      by replace (index - first)%nat with (S (index - S first)) by lia.
Qed.

(** C8. Whatever the engine answers, the sync calls [registerCsvAsTable]
    only for the sheets that have at least one row and one column, in their
    order (all of them when the sync succeeds, a first part of them when a
    registration fails). A map it returns binds a name only to the table of a
    sheet with data that carries the name; so the name of a sheet without
    rows or without columns is absent from it, unless a sheet with data
    carries the same name. *)
Theorem syncTablesWithProcessed_skips_empty_sheets
    (prevTableMap : gmap string string) (processed : ProcessedWorkbook.t) :
  let run := syncTablesWithProcessed engine_create prevTableMap processed in
  let sheets := ProcessedWorkbook.sheets processed in
  let fileName := ProcessedWorkbook.fileName processed in
  let due := registrations_due fileName (zip (seq 0 (length sheets)) sheets) in
  (exists k : nat, registered run = take k due)
  /\ (forall newMap,
        result run = Returned newMap ->
        registered run = due
        /\ tableMap run = newMap
        /\ (forall name table,
              newMap !! name = Some table ->
              exists index sheet,
                sheets !! index = Some sheet
                /\ ProcessedSheet.name sheet = name
                /\ has_data sheet = true
                /\ table = normaliseTableName fileName name index)
        /\ (forall sheet,
              sheet ∈ sheets ->
              has_data sheet = false ->
              (forall other,
                  other ∈ sheets ->
                  ProcessedSheet.name other = ProcessedSheet.name sheet ->
                  has_data other = false) ->
              newMap !! ProcessedSheet.name sheet = None)).
Proof.
  intros run sheets fileName due.
  pose proof (sync_loop_spec fileName (zip (seq 0 (length sheets)) sheets) ∅ [])
    as [[k Hk] Hsettled].
  assert (registered run = (sync_loop engine_create fileName
                              (zip (seq 0 (length sheets)) sheets) ∅ []).1) as Hreg.
  { subst run. unfold syncTablesWithProcessed. fold sheets fileName. by destruct (sync_loop _ _ _ _ _). }
  assert (result run = (sync_loop engine_create fileName
                          (zip (seq 0 (length sheets)) sheets) ∅ []).2) as Hres.
  { subst run. unfold syncTablesWithProcessed. fold sheets fileName. by destruct (sync_loop _ _ _ _ _). }
  assert (forall newMap, result run = Returned newMap -> tableMap run = newMap) as Htable.
  { subst run. unfold syncTablesWithProcessed. fold sheets fileName.
    destruct (sync_loop _ _ _ _ _) as [calls settled]. simpl. by intros newMap ->. }
  split.
  - exists k. by rewrite Hreg, Hk.
  - intros newMap Hret. rewrite Hres in Hret.
    destruct (Hsettled newMap Hret) as [Hcalls Hmap].
    assert (forall name table,
               newMap !! name = Some table ->
               exists index sheet,
                 sheets !! index = Some sheet
                 /\ ProcessedSheet.name sheet = name
                 /\ has_data sheet = true
                 /\ table = normaliseTableName fileName name index) as Hbound.
    { intros name table Hlookup.
      destruct (Hmap name table Hlookup) as [Hempty|(index & sheet & Hin & ?)].
      - by rewrite lookup_empty in Hempty.
      - exists index, sheet. split; [|done].
        apply entries_lookup in Hin as [_ Hin]. by rewrite Nat.sub_0_r in Hin. }
    split; [by rewrite Hreg, Hcalls|]. split; [apply Htable; by rewrite Hres|].
    split; [done|].
    intros sheet Hin Hnodata Hothers.
    destruct (newMap !! ProcessedSheet.name sheet) as [table|] eqn:Hlookup; [|done].
    destruct (Hbound _ _ Hlookup) as (index & other & Hother & Hname & Hdata & _).
    rewrite (Hothers other) in Hdata; [done| |done].
    apply list_elem_of_lookup. by exists index.
Qed.

End Sync.

(** A workbook with a sheet of data and an empty sheet, on an engine that
    accepts every table: only the first is registered and mapped. *)
Example syncTablesWithProcessed_scenario :
  let data :=
    {| ProcessedSheet.name := "Data";
       ProcessedSheet.columns := ["Name"];
       ProcessedSheet.rows := [object_of [("Name", VString "Ann")]];
       ProcessedSheet.csv := "Name" +:+ newline +:+ "Ann" |} in
  let processed :=
    {| ProcessedWorkbook.fileName := "Book 1.xlsx";
       ProcessedWorkbook.sheets := [emptyProcessedSheet "Empty"; data] |} in
  let run := syncTablesWithProcessed (fun _ _ => Returned ()) ∅ processed in
  registered run = [("book_1_data", "Name" +:+ newline +:+ "Ann")]
  /\ result run = Returned {[ "Data" := "book_1_data" ]}
  /\ tableMap run !! "Empty" = None.
Proof. by_evaluation. Qed.

Lemma syncTablesWithProcessed_skips_empty_sheets_witness :
  let data :=
    {| ProcessedSheet.name := "Data";
       ProcessedSheet.columns := ["Name"];
       ProcessedSheet.rows := [object_of [("Name", VString "Ann")]];
       ProcessedSheet.csv := "Name" +:+ newline +:+ "Ann" |} in
  let processed :=
    {| ProcessedWorkbook.fileName := "Book 1.xlsx";
       ProcessedWorkbook.sheets := [emptyProcessedSheet "Empty"; data] |} in
  let run := syncTablesWithProcessed (fun _ _ => Returned ()) ∅ processed in
  result run = Returned {[ "Data" := "book_1_data" ]}
  /\ ({[ "Data" := "book_1_data" ]} : gmap string string) !! "Empty" = None.
Proof.
  split; [vm_compute; reflexivity|].
  refine (proj2 (proj2 (proj2
            (proj2 (syncTablesWithProcessed_skips_empty_sheets (fun _ _ => Returned ()) ∅
                      {| ProcessedWorkbook.fileName := "Book 1.xlsx";
                         ProcessedWorkbook.sheets :=
                           [emptyProcessedSheet "Empty";
                            {| ProcessedSheet.name := "Data";
                               ProcessedSheet.columns := ["Name"];
                               ProcessedSheet.rows := [object_of [("Name", VString "Ann")]];
                               ProcessedSheet.csv := "Name" +:+ newline +:+ "Ann" |}] |})
                   {[ "Data" := "book_1_data" ]} _)))
            (emptyProcessedSheet "Empty") _ eq_refl _).
  - vm_compute. reflexivity.
  - apply list_elem_of_here.
  - intros other [->|Hin]%elem_of_cons Hname; [reflexivity|].
    apply list_elem_of_singleton in Hin as ->. discriminate Hname.
Defined.

(** ** Suggestion service *)

Section SuggestionFacts.

Variable fetch_config : outcome (Response.t (option AzureOpenAIConfig)).
Variable fetch_chat : ChatRequest -> outcome (Response.t ChatCompletionResponse).
Variable JSON_parse : string -> option json.
Variable JSON_stringify : list object -> string.

(** The reply is read in three steps: a JSON value first, else a SELECT
    statement, else nothing but the raw text. *)
Lemma suggestion_of_response_cases (response : string) :
  match json_reply JSON_parse response with
  | Some parsed =>
      suggestion_of_response JSON_parse response =
      {| query := or_empty (json_field "query" parsed);
         explanation := or_empty (json_field "explanation" parsed) |}
  | None =>
      suggestion_of_response JSON_parse response =
      {| query := match match_select response with
                  | Some sql => JString sql
                  | None => JString EmptyString
                  end;
         explanation := JString response |}
  end.
Proof.
  unfold json_reply, suggestion_of_response.
  destruct (match_json response) as [jsonText|]; simpl; [|done].
  destruct (JSON_parse jsonText) as [parsed|]; [|done].
  by destruct parsed.
Qed.

(** C9 (as amended). For every reply text that the model returns,
    [getSQLQuerySuggestion] resolves, with the suggestion read from the text
    in three steps: the fields of a JSON value found in it; else a SELECT
    statement, with the raw text as explanation; else the raw text as
    explanation and an empty query. When the chat call fails (configuration,
    network, status, body), the failure is not absorbed: the function
    rejects with the same error. *)
Theorem getSQLQuerySuggestion_outcome
    (config : option AzureOpenAIConfig) (userQuestion : string)
    (availableTables : list string)
    (tableSchemas : option (list (string * (list string * list object)))) :
  let suggested :=
    getSQLQuerySuggestion fetch_config fetch_chat JSON_parse JSON_stringify
      config userQuestion availableTables tableSchemas in
  exists systemPrompt : string,
    match chatWithAzureOpenAI fetch_config fetch_chat config
            [ {| role := "user"; content := userQuestion |} ] (Some systemPrompt) with
    | Thrown err => suggested = Thrown err
    | Returned response =>
        exists suggestion,
          suggested = Returned suggestion
          /\ match json_reply JSON_parse response with
             | Some parsed =>
                 query suggestion = or_empty (json_field "query" parsed)
                 /\ explanation suggestion = or_empty (json_field "explanation" parsed)
             | None =>
                 explanation suggestion = JString response
                 /\ query suggestion = match match_select response with
                                       | Some sql => JString sql
                                       | None => JString EmptyString
                                       end
             end
    end.
Proof.
  intros suggested. subst suggested. unfold getSQLQuerySuggestion.
  set (systemPrompt := systemPrompt_of _). exists systemPrompt.
  destruct (chatWithAzureOpenAI _ _ _ _ _) as [response|err]; [|done].
  exists (suggestion_of_response JSON_parse response). split; [done|].
  pose proof (suggestion_of_response_cases response) as Hcases.
  destruct (json_reply JSON_parse response); by rewrite Hcases.
Qed.

End SuggestionFacts.

(** C9 (as stated) fails: with a valid configuration, a reply of status 500
    or a network failure makes [getSQLQuerySuggestion] reject; so does a
    configuration that cannot be loaded. *)
Lemma getSQLQuerySuggestion_rejects :
  let cfg :=
    {| endpoint := "https://example.openai.azure.com/";
       apiKey := "key"; deployment := "gpt"; apiVersion := "2024-02-01" |} in
  let no_config := Thrown "Failed to fetch" in
  let server_error :=
    fun _ : ChatRequest =>
      Returned {| Response.ok := false; Response.status := 500;
                  Response.text := Returned "Internal Server Error";
                  Response.json := Thrown "Unexpected token" |} in
  let offline := fun _ : ChatRequest => @Thrown (Response.t ChatCompletionResponse) "Failed to fetch" in
  getSQLQuerySuggestion no_config server_error (fun _ => None) (fun _ => "[]")
    (Some cfg) "How many rows?" ["book_data"] None
  = Thrown "Azure OpenAI API error: 500 - Internal Server Error"
  /\ getSQLQuerySuggestion no_config offline (fun _ => None) (fun _ => "[]")
       (Some cfg) "How many rows?" ["book_data"] None
     = Thrown "Failed to fetch"
  /\ getSQLQuerySuggestion no_config offline (fun _ => None) (fun _ => "[]")
       None "How many rows?" ["book_data"] None
     = Thrown MISSING_CONFIGURATION.
Proof. by_evaluation. Qed.

(** A reply in the requested format, a reply with a bare statement, and a
    reply with neither. The parser stands for [JSON.parse] on the one text
    the first reply holds. *)
Example suggestion_of_response_scenarios :
  let parse :=
    fun text : string =>
      if String.eqb text ("{" +:+ in_quotes "query" +:+ ": " +:+ in_quotes "SELECT 1;" +:+ "}")
      then Some (JObject [("query", JString "SELECT 1;")]) else None in
  suggestion_of_response parse
    ("Here: {" +:+ in_quotes "query" +:+ ": " +:+ in_quotes "SELECT 1;" +:+ "} ok")
  = {| query := JString "SELECT 1;"; explanation := JString EmptyString |}
  /\ suggestion_of_response parse "Try select * from t; or {this}"
     = {| query := JString "select * from t;";
          explanation := JString "Try select * from t; or {this}" |}
  /\ suggestion_of_response parse "I cannot help with that."
     = {| query := JString EmptyString; explanation := JString "I cannot help with that." |}.
Proof. by_evaluation. Qed.

(** ** The frame of a selection *)

Section Frame.

Variable decode_range : string -> option xlsx.Range.

Lemma processSheet_name (sheet : ParsedSheet.t) (selection : option SheetSelection) :
  ProcessedSheet.name (processSheet decode_range sheet selection) = ParsedSheet.name sheet.
Proof.
  rewrite processSheet_unfold. cbv zeta.
  by destruct (max_row_width _ =? 0)%nat.
Qed.

(** C10. [applySelection] keeps the file name and turns the sheets one to
    one: as many processed sheets as parsed ones, in the same order, each
    under the name of the sheet it comes from and made by [processSheet]
    from that sheet and its entry in the config; a sheet whose processed
    content is empty still has its place. *)
Theorem applySelection_keeps_sheets
    (workbook : ParsedWorkbook.t) (config : WorkbookSelectionConfig) :
  let processed := applySelection decode_range workbook config in
  ProcessedWorkbook.fileName processed = ParsedWorkbook.fileName workbook
  /\ length (ProcessedWorkbook.sheets processed) = length (ParsedWorkbook.sheets workbook)
  /\ map ProcessedSheet.name (ProcessedWorkbook.sheets processed)
     = map ParsedSheet.name (ParsedWorkbook.sheets workbook)
  /\ (forall (index : nat) (sheet : ParsedSheet.t),
        ParsedWorkbook.sheets workbook !! index = Some sheet ->
        ProcessedWorkbook.sheets processed !! index
        = Some (processSheet decode_range sheet
                  (config_sheets config ≫= (.!! ParsedSheet.name sheet)))).
Proof.
  intros processed. subst processed. unfold applySelection. simpl.
  split; [done|]. split; [by rewrite length_map|]. split.
  - rewrite map_map. apply map_ext. intros sheet. apply processSheet_name.
  - intros index sheet Hsheet. rewrite list_lookup_fmap. by rewrite Hsheet.
Qed.

End Frame.

(** A workbook whose second sheet is empty keeps both sheets. *)
Example applySelection_scenario :
  let workbook :=
    {| ParsedWorkbook.fileName := "Book 1.xlsx";
       ParsedWorkbook.sheets :=
         [sheet_of "Data" [[VString "Name"]; [VString "Ann"]]; sheet_of "Empty" []] |} in
  let processed := applySelection xlsx.decode_range workbook {| config_sheets := None |} in
  ProcessedWorkbook.fileName processed = "Book 1.xlsx"
  /\ map ProcessedSheet.name (ProcessedWorkbook.sheets processed) = ["Data"; "Empty"]
  /\ ProcessedWorkbook.sheets processed !! 1%nat = Some (emptyProcessedSheet "Empty").
Proof. by_evaluation. Qed.

(** ** The two patterns of the reply parser *)

Section Patterns.

Implicit Types (response text before inside after : string).

Lemma has_char_app (a : ascii) text after :
  has_char a (text +:+ after) = has_char a text || has_char a after.
Proof. apply string_existsb_app. Qed.

Lemma upto_last_brace_none text : has_char "}" text = false -> upto_last_brace text = None.
Proof.
  unfold has_char. induction text as [|a text IH]; simpl; [done|].
  intros [Ha Hrest]%orb_false_elim. by rewrite IH, Ha.
Qed.

Lemma upto_last_brace_found inside after :
  has_char "}" after = false ->
  upto_last_brace (inside +:+ "}" +:+ after) = Some (inside +:+ "}").
Proof.
  intros Hafter. induction inside as [|a inside IH]; simpl.
  - by rewrite upto_last_brace_none.
  - by rewrite IH.
Qed.

Lemma upto_last_brace_some text t :
  upto_last_brace text = Some t ->
  exists inside after,
    text = inside +:+ "}" +:+ after /\ t = inside +:+ "}" /\ has_char "}" after = false.
Proof.
  revert t. induction text as [|a text IH]; intros t; simpl; [done|].
  destruct (upto_last_brace text) as [t'|] eqn:Hrest.
  - intros [= <-]. destruct (IH t' eq_refl) as (inside & after & Htext & Ht & Hafter).
    exists (String a inside), after. simpl. by rewrite Htext, Ht.
  - destruct (Ascii.eqb_spec a "}") as [->|Hne]; [|done].
    intros [= <-]. exists EmptyString, text. repeat split.
    clear IH. unfold has_char. induction text as [|b text IH]; simpl in *; [done|].
    destruct (upto_last_brace text); [done|].
    destruct (Ascii.eqb b "}"); [done|]. by apply IH.
Qed.

(** [match_json] returns the text from the first opening brace to the last
    closing brace after it, as the greedy pattern does ... *)
Lemma match_json_some response jsonText :
  match_json response = Some jsonText ->
  exists before inside after,
    response = before +:+ "{" +:+ inside +:+ "}" +:+ after
    /\ jsonText = "{" +:+ inside +:+ "}"
    /\ has_char "{" before = false
    /\ has_char "}" after = false.
Proof.
  induction response as [|a response IH]; simpl; [done|].
  destruct (Ascii.eqb_spec a "{") as [->|Hne].
  - destruct (upto_last_brace response) as [t|] eqn:Hrest; [|done].
    intros [= <-]. apply upto_last_brace_some in Hrest as (inside & after & -> & -> & Hafter).
    by exists EmptyString, inside, after.
  - intros (before & inside & after & -> & -> & Hbefore & Hafter)%IH.
    exists (String a before), inside, after. repeat split; [|done].
    unfold has_char in *. simpl. rewrite Hbefore, orb_false_r. by apply Ascii.eqb_neq.
Qed.

(** ... and it finds that text wherever there is one. *)
Lemma match_json_found before inside after :
  has_char "{" before = false ->
  has_char "}" after = false ->
  match_json (before +:+ "{" +:+ inside +:+ "}" +:+ after) = Some ("{" +:+ inside +:+ "}").
Proof.
  intros Hbefore Hafter. induction before as [|a before IH]; simpl.
  - change (String "{" <$> upto_last_brace (inside +:+ "}" +:+ after)
            = Some ("{" +:+ inside +:+ "}")).
    by rewrite upto_last_brace_found.
  - unfold has_char in Hbefore. simpl in Hbefore.
    apply orb_false_elim in Hbefore as [-> Hbefore]. by apply IH.
Qed.

Lemma upto_first_semicolon_some text t :
  upto_first_semicolon text = Some t ->
  exists inside after,
    text = inside +:+ ";" +:+ after /\ t = inside +:+ ";" /\ has_char ";" inside = false.
Proof.
  revert t. induction text as [|a text IH]; intros t; simpl; [done|].
  destruct (Ascii.eqb_spec a ";") as [->|Hne].
  - intros [= <-]. by exists EmptyString, text.
  - destruct (upto_first_semicolon text) as [t'|]; [|done].
    intros [= <-]. destruct (IH t' eq_refl) as (inside & after & -> & -> & Hinside).
    exists (String a inside), after. repeat split.
    unfold has_char in *. simpl. rewrite Hinside, orb_false_r. by apply Ascii.eqb_neq.
Qed.

Lemma upto_first_semicolon_found inside after :
  is_Some (upto_first_semicolon (inside +:+ ";" +:+ after)).
Proof.
  induction inside as [|a inside IH]; simpl; [done|].
  destruct (Ascii.eqb a ";"); [done|]. destruct IH as [t ->]. done.
Qed.

Lemma after_prefix_some (word text rest : string) :
  after_prefix_ignoring_case word text = Some rest ->
  exists found,
    text = found +:+ rest
    /\ upper_text found = upper_text word
    /\ String.substring 0 (String.length word) text = found.
Proof.
  revert text. induction word as [|w word IH]; intros text; simpl.
  - intros [= ->]. exists EmptyString. repeat split. by destruct rest.
  - destruct text as [|a text]; [done|].
    destruct (Ascii.eqb_spec (upper_char w) (upper_char a)) as [Heq|]; [|done].
    intros (found & -> & Hupper & Hsub)%IH.
    exists (String a found). simpl. by rewrite Hupper, Heq, Hsub.
Qed.

Lemma after_prefix_found (word found rest : string) :
  upper_text found = upper_text word ->
  after_prefix_ignoring_case word (found +:+ rest) = Some rest.
Proof.
  revert found. induction word as [|w word IH]; intros found; simpl.
  - by destruct found.
  - destruct found as [|a found]; [done|]. simpl. intros [= Ha Hrest].
    rewrite Ha, Ascii.eqb_refl. by apply IH.
Qed.

(** [match_select] returns a text that starts with SELECT, in any letter
    case, and ends at the first semicolon after that word ... *)
Lemma match_select_some response sql :
  match_select response = Some sql ->
  exists before word inside after,
    response = before +:+ word +:+ inside +:+ ";" +:+ after
    /\ sql = word +:+ inside +:+ ";"
    /\ upper_text word = "SELECT"
    /\ has_char ";" inside = false.
Proof.
  revert sql. induction response as [|a response IH]; intros sql; [done|].
  cbn [match_select].
  destruct (after_prefix_ignoring_case "SELECT" (String a response)) as [rest|] eqn:Hword;
    cbn [mbind option_bind].
  - destruct (upto_first_semicolon rest) as [tail|] eqn:Htail.
    + intros [= <-].
      apply after_prefix_some in Hword as (word & Htext & Hupper & Hsub).
      apply upto_first_semicolon_some in Htail as (inside & after & -> & -> & Hinside).
      exists EmptyString, word, inside, after.
      simpl in Hsub. rewrite Hsub. by rewrite Htext.
    + intros (before & word & inside & after & -> & -> & ? & ?)%IH.
      by exists (String a before), word, inside, after.
  - intros (before & word & inside & after & -> & -> & ? & ?)%IH.
    by exists (String a before), word, inside, after.
Qed.

(** ... and it finds one wherever the reply holds the word and a semicolon
    after it. *)
Lemma match_select_found before word inside after :
  upper_text word = "SELECT" ->
  is_Some (match_select (before +:+ word +:+ inside +:+ ";" +:+ after)).
Proof.
  intros Hword. induction before as [|a before IH].
  - destruct word as [|w word]; [done|].
    change (EmptyString +:+ String w word +:+ inside +:+ ";" +:+ after)
      with (String w (word +:+ inside +:+ ";" +:+ after)).
    cbn [match_select].
    change (String w (word +:+ inside +:+ ";" +:+ after))
      with (String w word +:+ (inside +:+ ";" +:+ after)).
    rewrite (after_prefix_found "SELECT" (String w word)) by done.
    cbn [mbind option_bind].
    by destruct (upto_first_semicolon_found inside after) as [tail ->].
  - change (String a before +:+ word +:+ inside +:+ ";" +:+ after)
      with (String a (before +:+ word +:+ inside +:+ ";" +:+ after)).
    cbn [match_select]. destruct (_ ≫= _); [done|apply IH].
Qed.

End Patterns.

Lemma applySelection_keeps_sheets_witness :
  let workbook :=
    {| ParsedWorkbook.fileName := "Book 1.xlsx";
       ParsedWorkbook.sheets :=
         [sheet_of "Data" [[VString "Name"]; [VString "Ann"]]; sheet_of "Empty" []] |} in
  let config :=
    {| config_sheets :=
         Some {[ "Empty" := {| range := Some "A1:B2"; firstRowIsHeader := None |} ]} |} in
  ProcessedWorkbook.sheets (applySelection xlsx.decode_range workbook config) !! 1%nat
  = Some (processSheet xlsx.decode_range (sheet_of "Empty" [])
            (config_sheets config ≫= (.!! "Empty"))).
Proof.
  exact (proj2 (proj2 (proj2
           (applySelection_keeps_sheets xlsx.decode_range
              {| ParsedWorkbook.fileName := "Book 1.xlsx";
                 ParsedWorkbook.sheets :=
                   [sheet_of "Data" [[VString "Name"]; [VString "Ann"]]; sheet_of "Empty" []] |}
              {| config_sheets :=
                   Some {[ "Empty" := {| range := Some "A1:B2"; firstRowIsHeader := None |} ]} |})))
           1%nat (sheet_of "Empty" []) eq_refl).
Defined.

(** ** Further examples *)

Example cellToExcelNotation_examples :
  cellToExcelNotation 0 0 = "A1"
  /\ cellToExcelNotation 9 25 = "Z10"
  /\ cellToExcelNotation 9 26 = "AA10"
  /\ cellToExcelNotation 99 701 = "ZZ100"
  /\ cellToExcelNotation 0 702 = "AAA1"
  /\ cellToExcelNotation 1048575 16383 = "XFD1048576".
Proof. repeat split; reflexivity. Qed.

Example selectionToRange_examples :
  selectionToRange {| start := Some {| row := 2; col := 27 |};
                      end_ := Some {| row := 0; col := 3 |} |} = "D1:AB3"
  /\ selectionToRange {| start := Some {| row := 0; col := 3 |};
                         end_ := Some {| row := 2; col := 27 |} |} = "D1:AB3"
  /\ selectionToRange {| start := None; end_ := None |} = EmptyString.
Proof. repeat split; reflexivity. Qed.

Example decode_range_examples :
  xlsx.decode_range "B3:E20"
  = Some {| xlsx.s := {| xlsx.r := 2; xlsx.c := 1 |}; xlsx.e := {| xlsx.r := 19; xlsx.c := 4 |} |}
  /\ xlsx.decode_range "B3" = None
  /\ xlsx.decode_range "b3:e20" = None
  /\ xlsx.decode_range "A0:B2" = None.
Proof. repeat split; reflexivity. Qed.

Example normaliseTableName_examples :
  normaliseTableName "Book 1.xlsx" "Data" 0 = "book_1_data"
  /\ normaliseTableName "my.report.v2.xlsx" EmptyString 2 = "my_report_v2_sheet_3"
  /\ normaliseTableName "Sales (2024).xls" "Q1 -- totals!" 0 = "sales_2024_q1_totals"
  /\ normaliseTableName ".xlsx" "___" 4 = "sheet_5"
  /\ normaliseTableName "###" "***" 4 = "sheet_5".
Proof. repeat split; reflexivity. Qed.

Example trim_examples :
  trim "  Name  " = "Name" /\ trim "   " = EmptyString /\ trim "a  b " = "a  b".
Proof. repeat split; reflexivity. Qed.

(** * Further properties of the code *)

(** ** Cell references *)

Lemma cellToExcelNotation_injective_witness : 27 = 27 /\ 701 = 701.
Proof.
  apply (cellToExcelNotation_injective 27 701 27 701); try lia. reflexivity.
Defined.

(** X2. The reference of a cell is a run of capital letters followed by a
    run of decimal digits, neither empty; the letters, read in bijective
    base 26 (A = 1, ..., Z = 26), give the column plus one, and the digits
    give the row plus one. *)
Theorem cellToExcelNotation_format (row col : Z) :
  0 <= row -> 0 <= col ->
  exists letters digits,
    cellToExcelNotation row col = letters +:+ digits
    /\ is_empty letters = false
    /\ string_forallb xlsx.is_upper letters = true
    /\ xlsx.letters_value 0 letters = col + 1
    /\ is_empty digits = false
    /\ string_forallb xlsx.is_digit digits = true
    /\ xlsx.digits_value 0 digits = row + 1.
Proof.
  intros Hrow Hcol. exists (colName_of col), (decimal (row + 1)).
  unfold cellToExcelNotation, Number_toString.
  destruct (Z.ltb_spec (row + 1) 0); [lia|].
  split; [done|]. split; [by apply colName_of_nonempty|].
  split; [apply colName_of_upper|]. split; [by apply colName_of_value|].
  split; [apply decimal_nonempty|]. split; [apply decimal_digits|].
  apply decimal_value. lia.
Qed.

Lemma cellToExcelNotation_format_witness :
  exists letters digits,
    cellToExcelNotation 9 26 = letters +:+ digits
    /\ is_empty letters = false
    /\ string_forallb xlsx.is_upper letters = true
    /\ xlsx.letters_value 0 letters = 26 + 1
    /\ is_empty digits = false
    /\ string_forallb xlsx.is_digit digits = true
    /\ xlsx.digits_value 0 digits = 9 + 1.
Proof. apply (cellToExcelNotation_format 9 26); lia. Defined.

(** ** The drag *)

(** X3. The direction of a drag does not matter: swapping the anchor and
    the cursor gives the same range string and the same highlighted cells. *)
Theorem selection_direction_irrelevant (a b : CellPosition) (r c : Z) :
  selectionToRange {| start := Some a; end_ := Some b |}
  = selectionToRange {| start := Some b; end_ := Some a |}
  /\ isCellInSelection r c {| start := Some a; end_ := Some b |}
     = isCellInSelection r c {| start := Some b; end_ := Some a |}.
Proof.
  unfold selectionToRange, isCellInSelection. simpl.
  by rewrite (Z.min_comm (row a)), (Z.max_comm (row a)),
             (Z.min_comm (col a)), (Z.max_comm (col a)).
Qed.

Section Drag.

Import RangeSelector.

Implicit Types (st : State) (events : list PointerEvent).

Lemma handle_invariant (event : PointerEvent) st :
  drag_invariant st -> drag_invariant (handle event st).
Proof.
  intros Hst. destruct event as [disabled row col|row col|]; simpl.
  - unfold handleMouseDown. destruct disabled; [done|]. by split.
  - unfold handleMouseEnter. destruct (isSelecting st) eqn:Hsel; [|done].
    destruct (start (selection st)) eqn:Hstart; [|done].
    unfold drag_invariant. simpl. by split.
  - destruct Hst as [Hboth _]. split; [done|]. simpl. discriminate.
Qed.

Lemma run_invariant events st : drag_invariant st -> drag_invariant (run events st).
Proof.
  revert st. induction events as [|event events IH]; intros st Hst; [done|].
  apply IH. by apply handle_invariant.
Qed.

Lemma run_app events events' st : run (events ++ events') st = run events' (run events st).
Proof. apply fold_left_app. Qed.

Lemma run_keeps_anchor events st :
  forallb (fun event => negb (is_mouse_down event)) events = true ->
  start (selection (run events st)) = start (selection st).
Proof.
  revert st. induction events as [|event events IH]; intros st; simpl; [done|].
  intros [Hevent Hrest]%andb_prop. unfold run in IH. rewrite IH by done.
  destruct event as [[] row col|row col|]; simpl in *; try done.
  unfold handleMouseEnter. destruct (isSelecting st); [|done].
  destruct (start (selection st)) eqn:Hstart; simpl; congruence.
Qed.

Lemma run_idle events st :
  isSelecting st = false ->
  forallb (fun event => negb (is_mouse_down event)) events = true ->
  selection (run events st) = selection st.
Proof.
  revert st. induction events as [|event events IH]; intros st Hidle; simpl; [done|].
  intros [Hevent Hrest]%andb_prop. unfold run in IH.
  destruct event as [[] row col|row col|]; simpl in *; try done.
  - by rewrite IH.
  - unfold handleMouseEnter. rewrite Hidle. by rewrite IH.
  - by rewrite IH.
Qed.

(** X4. Whatever pointer events reach the grid, in whatever order, anchor
    and cursor of the selection are absent together or present together, and
    a drag in progress has an anchor. Between two presses the anchor stays
    where the press put it, and once the button is up the selection no
    longer moves until the next press. *)
Theorem drag_keeps_selection_well_formed events :
  drag_invariant (run events initial)
  /\ (forall before after st,
        forallb (fun event => negb (is_mouse_down event)) after = true ->
        start (selection (run (before ++ after) st)) = start (selection (run before st)))
  /\ (forall before after st,
        forallb (fun event => negb (is_mouse_down event)) after = true ->
        selection (run (before ++ MouseUp :: after) st) = selection (run before st)).
Proof.
  split; [|split].
  - apply run_invariant. split; [done|]. simpl. discriminate.
  - intros before after st Hafter. rewrite run_app. by apply run_keeps_anchor.
  - intros before after st Hafter. rewrite run_app. simpl.
    change (fold_left _ after ?s) with (run after s). by rewrite run_idle.
Qed.

(** A press on B2, a move to D5, the release, and a move that comes late. *)
Lemma drag_keeps_selection_well_formed_witness :
  start (selection (run ([MouseDown false 1 1; MouseEnter 4 3] ++ [MouseEnter 9 9; MouseUp]) initial))
  = start (selection (run [MouseDown false 1 1; MouseEnter 4 3] initial))
  /\ selection (run ([MouseDown false 1 1; MouseEnter 4 3] ++ MouseUp :: [MouseEnter 9 9]) initial)
     = selection (run [MouseDown false 1 1; MouseEnter 4 3] initial).
Proof.
  split.
  - exact (proj1 (proj2 (drag_keeps_selection_well_formed []))
             [MouseDown false 1 1; MouseEnter 4 3] [MouseEnter 9 9; MouseUp] initial eq_refl).
  - exact (proj2 (proj2 (drag_keeps_selection_well_formed []))
             [MouseDown false 1 1; MouseEnter 4 3] [MouseEnter 9 9] initial eq_refl).
Defined.

(** X5. The commit effect settles: when it notifies a new config, that
    config differs from the old one at the selected sheet only, and running
    the effect again on the new config notifies nothing. *)
Theorem commitEffect_settles st (isHeader : bool)
    (config config' : WorkbookSelectionConfig) (selectedSheet : string) :
  commitEffect st isHeader config selectedSheet = Some config' ->
  commitEffect st isHeader config' selectedSheet = None
  /\ (config_sheets config' ≫= (.!! selectedSheet)
      = Some {| range := Some (selectionToRange (selection st));
                firstRowIsHeader := Some isHeader |})
  /\ (forall other, other <> selectedSheet ->
        config_sheets config' ≫= (.!! other) = config_sheets config ≫= (.!! other)).
Proof.
  unfold commitEffect.
  destruct (start (selection st)) as [a|]; [|done].
  destruct (end_ (selection st)) as [b|]; [|done].
  destruct (isSelecting st); [done|].
  destruct (_ || _); [|done]. intros [= <-]. simpl.
  rewrite lookup_insert_eq. simpl.
  rewrite String.eqb_refl, eqb_reflx. simpl. split; [done|]. split; [done|].
  intros other Hother. rewrite lookup_insert_ne by done.
  by destruct (config_sheets config).
Qed.

Lemma commitEffect_settles_witness :
  let st := run [MouseDown false 1 1; MouseEnter 4 3; MouseUp] initial in
  let config' :=
    {| config_sheets := Some {[ "Data" := {| range := Some "B2:D5";
                                             firstRowIsHeader := Some true |} ]} |} in
  commitEffect st true config' "Data" = None
  /\ (config_sheets config' ≫= (.!! "Data")
      = Some {| range := Some (selectionToRange (selection st));
                firstRowIsHeader := Some true |})
  /\ (forall other, other <> "Data" ->
        config_sheets config' ≫= (.!! other)
        = config_sheets {| config_sheets := None |} ≫= (.!! other)).
Proof.
  apply (commitEffect_settles
           (run [MouseDown false 1 1; MouseEnter 4 3; MouseUp] initial) true
           {| config_sheets := None |}
           {| config_sheets := Some {[ "Data" := {| range := Some "B2:D5";
                                                    firstRowIsHeader := Some true |} ]} |}
           "Data").
  vm_compute. reflexivity.
Defined.

End Drag.

(** ** The extracted sub-matrix *)

Section SubMatrix.

Variable decode_range : string -> option xlsx.Range.

Implicit Types (matrix : list (list value)) (range : string) (decoded : xlsx.Range).

Lemma cell_at_defined matrix (r c : Z) :
  cell_at matrix r c <> VUndefined
  /\ (cell_at matrix r c = VNull
      \/ exists source, source ∈ matrix /\ cell_at matrix r c ∈ source).
Proof.
  unfold cell_at.
  destruct (matrix !! Z.to_nat r) as [source|] eqn:Hrow; simpl; [|by split; [|left]].
  destruct (source !! Z.to_nat c) as [cell|] eqn:Hcell; simpl; [|by split; [|left]].
  destruct cell; simpl; (split; [done|]); try (by left);
    right; exists source; split;
      try (apply list_elem_of_lookup; by eexists);
      apply list_elem_of_lookup; by eexists.
Qed.

(** X6. Once the range is decoded, the extracted sub-matrix is dense: all
    its rows have one length, no cell is undefined, and every cell is null
    or a cell of the matrix. This holds for jagged matrices and for ranges
    that reach outside the matrix. *)
Theorem extractRangeMatrix_dense matrix range decoded :
  range <> EmptyString ->
  decode_range range = Some decoded ->
  let extracted := extractRangeMatrix decode_range matrix (Some range) in
  (exists width : nat, Forall (fun row => length row = width) extracted)
  /\ (forall row cell,
        row ∈ extracted -> cell ∈ row ->
        cell <> VUndefined
        /\ (cell = VNull \/ exists source, source ∈ matrix /\ cell ∈ source)).
Proof.
  intros Hne Hdec extracted. subst extracted.
  rewrite (extractRangeMatrix_decoded decode_range matrix range decoded Hdec Hne). cbv zeta.
  split.
  - eexists. apply rectangle_row_length.
  - intros row cell Hrow Hcell. unfold rectangle in Hrow.
    apply list_elem_of_fmap in Hrow as (r & -> & _).
    apply list_elem_of_fmap in Hcell as (c & -> & _).
    apply cell_at_defined.
Qed.

End SubMatrix.

Lemma extractRangeMatrix_dense_witness :
  let matrix := [[VString "a"; VUndefined; VString "c"]; [VString "d"]] in
  let extracted := extractRangeMatrix xlsx.decode_range matrix (Some "B1:E9") in
  (exists width : nat, Forall (fun row => length row = width) extracted)
  /\ (forall row cell,
        row ∈ extracted -> cell ∈ row ->
        cell <> VUndefined
        /\ (cell = VNull \/ exists source, source ∈ matrix /\ cell ∈ source)).
Proof.
  apply (extractRangeMatrix_dense xlsx.decode_range [[VString "a"; VUndefined; VString "c"]; [VString "d"]]
           "B1:E9" {| xlsx.s := {| xlsx.r := 0; xlsx.c := 1 |};
                      xlsx.e := {| xlsx.r := 8; xlsx.c := 4 |} |});
    [discriminate | reflexivity].
Defined.

Example extractRangeMatrix_dense_example :
  extractRangeMatrix xlsx.decode_range
    [[VString "a"; VUndefined; VString "c"]; [VString "d"]] (Some "B1:E9")
  = [[VNull; VString "c"]; [VNull; VNull]].
Proof. by_evaluation. Qed.

(** ** Bounds of a processed sheet *)

(** The range Z100:AB200 lies outside a sheet of two rows and two columns. *)
Lemma processSheet_within_witness :
  let sheet := sheet_of "Data" [[VString "Name"; VString "Age"]; [VString "Ann"; VNumber "30"]] in
  let selection := Some {| range := Some "Z100:AB200"; firstRowIsHeader := Some false |} in
  (length (ProcessedSheet.rows (processSheet xlsx.decode_range sheet selection)) <= 2)%nat
  /\ (length (ProcessedSheet.columns (processSheet xlsx.decode_range sheet selection)) <= 2)%nat.
Proof.
  apply (processSheet_within xlsx.decode_range
           (sheet_of "Data" [[VString "Name"; VString "Age"]; [VString "Ann"; VNumber "30"]])
           (Some {| range := Some "Z100:AB200"; firstRowIsHeader := Some false |}));
    simpl; lia.
Defined.

(** ** Ranges written backwards *)

Section Backwards.

Variable decode_range : string -> option xlsx.Range.

Lemma max_row_width_nil (target : list (list value)) :
  Forall (fun row => row = []) target -> max_row_width target = 0%nat.
Proof. induction 1 as [|row target -> _ IH]; simpl; [done|]. by rewrite IH. Qed.

(** X8. A range whose end lies before its start is not put in order: when
    the decoded end row is above the start row, or the end column left of
    the start column (all within the matrix), nothing is selected and the
    processed sheet is the empty one. *)
Theorem processSheet_backwards_range
    (sheet : ParsedSheet.t) (selection : SheetSelection) (range : string) (decoded : xlsx.Range) :
  selected_range (Some selection) = Some range ->
  decode_range range = Some decoded ->
  (0 <= xlsx.r (xlsx.e decoded) < xlsx.r (xlsx.s decoded)
   /\ xlsx.r (xlsx.s decoded) < Z.of_nat (length (ParsedSheet.matrix sheet)))
  \/ (0 <= xlsx.c (xlsx.e decoded) < xlsx.c (xlsx.s decoded)
      /\ xlsx.c (xlsx.s decoded) < Z.of_nat (max_row_width (ParsedSheet.matrix sheet))) ->
  processSheet decode_range sheet (Some selection) = emptyProcessedSheet (ParsedSheet.name sheet).
Proof.
  intros Hrange Hdec Hback. rewrite processSheet_unfold. cbv zeta. rewrite Hrange.
  assert (range <> EmptyString) as Hne.
  { intros ->. unfold selected_range in Hrange.
    by destruct (trim <$> _) as [[|]|]. }
  rewrite (extractRangeMatrix_decoded decode_range _ range decoded Hdec Hne). cbv zeta.
  set (m := ParsedSheet.matrix sheet) in *.
  assert (max_row_width
            (rectangle m
               (clamp (xlsx.r (xlsx.s decoded)) 0 (Z.max 0 (Z.of_nat (length m) - 1)))
               (clamp (xlsx.c (xlsx.s decoded)) 0 (Z.max 0 (Z.of_nat (max_row_width m) - 1)))
               (clamp (xlsx.r (xlsx.e decoded)) 0 (Z.max 0 (Z.of_nat (length m) - 1)))
               (clamp (xlsx.c (xlsx.e decoded)) 0 (Z.max 0 (Z.of_nat (max_row_width m) - 1))))
          = 0%nat) as ->; [|done].
  apply max_row_width_nil. destruct Hback as [[Hrows Hlen]|[Hcols Hwidth]].
  - unfold rectangle.
    rewrite (clamp_inside (xlsx.r (xlsx.s decoded))), (clamp_inside (xlsx.r (xlsx.e decoded))) by lia.
    rewrite (seqZ_nil _ (xlsx.r (xlsx.e decoded) - xlsx.r (xlsx.s decoded) + 1)) by lia.
    constructor.
  - unfold rectangle. apply Forall_map, Forall_forall. intros r _.
    rewrite (clamp_inside (xlsx.c (xlsx.s decoded))), (clamp_inside (xlsx.c (xlsx.e decoded))) by lia.
    by rewrite seqZ_nil by lia.
Qed.

End Backwards.

(** The range B2:A1 on a sheet of two rows and two columns. *)
Lemma processSheet_backwards_range_witness :
  processSheet xlsx.decode_range
    (sheet_of "Data" [[VString "Name"; VString "Age"]; [VString "Ann"; VNumber "30"]])
    (Some {| range := Some "B2:A1"; firstRowIsHeader := None |})
  = emptyProcessedSheet "Data".
Proof.
  apply (processSheet_backwards_range xlsx.decode_range
           (sheet_of "Data" [[VString "Name"; VString "Age"]; [VString "Ann"; VNumber "30"]])
           {| range := Some "B2:A1"; firstRowIsHeader := None |}
           "B2:A1"
           {| xlsx.s := {| xlsx.r := 1; xlsx.c := 1 |}; xlsx.e := {| xlsx.r := 0; xlsx.c := 0 |} |});
    [reflexivity | reflexivity | left; simpl; lia].
Defined.

(** ** Row records *)

Section Records.

Implicit Types (columns : list string) (row : list value) (record : object).

Lemma obj_set_own_other (key col : string) (v : value) record :
  key <> col -> own (obj_set key v record) !! col = own record !! col.
Proof.
  intros Hne. unfold obj_set. destruct (decide (key = "__proto__")) as [Hproto|_].
  - destruct (proto record); simpl; try (by destruct (is_object_or_null v)).
    by rewrite lookup_insert_ne.
  - simpl. by rewrite lookup_insert_ne.
Qed.

Lemma obj_set_own_same (col : string) (v : value) record :
  col <> "__proto__" -> own (obj_set col v record) !! col = Some v.
Proof.
  intros Hne. unfold obj_set. destruct (decide (col = "__proto__")); [done|].
  simpl. by rewrite lookup_insert_eq.
Qed.

Lemma zip_seq_snoc columns (col : string) (first : nat) :
  zip (seq first (length (columns ++ [col]))) (columns ++ [col])
  = zip (seq first (length columns)) columns ++ [((first + length columns)%nat, col)].
Proof.
  revert first. induction columns as [|c columns IH]; intros first; simpl.
  - by rewrite Nat.add_0_r.
  - rewrite IH. by rewrite Nat.add_succ_r.
Qed.

(** The own property that the fold leaves under a column name: the cell
    under the last column of that name. *)
Lemma record_of_row_own columns row (index : nat) (col : string) :
  columns !! index = Some col ->
  col <> "__proto__" ->
  (forall later, (index < later)%nat -> columns !! later <> Some col) ->
  own (record_of_row columns row) !! col = Some (nullish (row !! index) VNull).
Proof.
  unfold record_of_row. revert index.
  induction columns as [|last columns IH] using rev_ind; intros index Hcol Hproto Hlast; [done|].
  rewrite zip_seq_snoc, fold_left_app. simpl.
  destruct (decide (index = length columns)) as [->|Hindex].
  - rewrite lookup_app_r, Nat.sub_diag in Hcol by done. injection Hcol as ->.
    by apply obj_set_own_same.
  - assert (index < length columns)%nat as Hlt.
    { apply lookup_lt_Some in Hcol. rewrite length_app in Hcol. simpl in Hcol. lia. }
    rewrite lookup_app_l in Hcol by done.
    rewrite obj_set_own_other.
    + apply IH; [done|done|]. intros later Hlater Hsome.
      apply (Hlast later Hlater). rewrite lookup_app_l; [done|]. by apply lookup_lt_Some in Hsome.
    + intros ->. apply (Hlast (length columns) Hlt).
      by rewrite lookup_app_r, Nat.sub_diag.
Qed.

Lemma matrixToRows_records (target : list (list value)) columns (headerIncluded : bool) :
  matrixToRows target columns headerIncluded
  = map (record_of_row columns) (if headerIncluded then drop 1 target else target).
Proof. done. Qed.

(** X9. Every record that [matrixToRows] builds answers every column name
    (other than [__proto__]): with the cell of the row under that column,
    null when the row has no such cell or the cell is undefined. When
    several columns carry one name the record keeps the cell of the last of
    them. *)
Theorem matrixToRows_record_lookup
    (target : list (list value)) columns (headerIncluded : bool)
    (position index : nat) record (col : string) :
  matrixToRows target columns headerIncluded !! position = Some record ->
  columns !! index = Some col ->
  col <> "__proto__" ->
  (forall later, (index < later)%nat -> columns !! later <> Some col) ->
  exists row,
    (if headerIncluded then drop 1 target else target) !! position = Some row
    /\ obj_get col record = nullish (row !! index) VNull
    /\ obj_get col record <> VUndefined.
Proof.
  intros Hrecord Hcol Hproto Hlast. rewrite matrixToRows_records in Hrecord.
  rewrite list_lookup_fmap in Hrecord.
  destruct ((if headerIncluded then drop 1 target else target) !! position) as [row|]; [|done].
  injection Hrecord as <-. exists row. split; [done|].
  unfold obj_get. rewrite (record_of_row_own columns row index col) by done.
  split; [done|]. by destruct (row !! index) as [[]|].
Qed.

(** The second of two "Amount" columns wins; the short row reads as null. *)
Lemma matrixToRows_record_lookup_witness :
  exists row,
    drop 1 [[VString "Amount"; VString "Amount"]; [VNumber "1"; VNumber "2"]; [VNumber "3"]]
      !! 1%nat = Some row
    /\ obj_get "Amount" (object_of [("Amount", VNull)]) = nullish (row !! 1%nat) VNull
    /\ obj_get "Amount" (object_of [("Amount", VNull)]) <> VUndefined.
Proof.
  apply (matrixToRows_record_lookup
           [[VString "Amount"; VString "Amount"]; [VNumber "1"; VNumber "2"]; [VNumber "3"]]
           ["Amount"; "Amount"] true 1 1 (object_of [("Amount", VNull)]) "Amount").
  - vm_compute. reflexivity.
  - reflexivity.
  - discriminate.
  - intros later Hlater Hsome. apply lookup_lt_Some in Hsome. simpl in Hsome. lia.
Defined.

End Records.

(** ** Sheets with a header row *)

(** X10. With a header row (the default), a selected sub-matrix of N rows
    and width [w >= 1] gives [w] columns, named from its first row, and
    N - 1 data rows: the first row is consumed as the header. *)
Theorem processSheet_with_header
    (decode_range : string -> option xlsx.Range)
    (sheet : ParsedSheet.t) (selection : option SheetSelection) :
  selection ≫= firstRowIsHeader <> Some false ->
  let target :=
    extractRangeMatrix decode_range (ParsedSheet.matrix sheet) (selected_range selection) in
  let processed := processSheet decode_range sheet selection in
  (1 <= max_row_width target)%nat ->
  ProcessedSheet.columns processed
  = buildColumnsFromHeaderRow (default [] (target !! 0%nat)) (max_row_width target)
  /\ length (ProcessedSheet.columns processed) = max_row_width target
  /\ length (ProcessedSheet.rows processed) = (length target - 1)%nat.
Proof.
  intros Hflag target processed Hwidth. subst processed.
  rewrite processSheet_unfold. cbv zeta. fold target.
  destruct (Nat.eqb_spec (max_row_width target) 0) as [|_]; [lia|].
  assert (match selection ≫= firstRowIsHeader with Some false => false | _ => true end = true)
    as -> by (by destruct (selection ≫= firstRowIsHeader) as [[]|]).
  simpl. rewrite matrixToRows_length. split; [done|]. split; [|done].
  unfold buildColumnsFromHeaderRow. by rewrite length_map, length_seq.
Qed.

Lemma processSheet_with_header_witness :
  let sheet :=
    sheet_of "People"
      [[VString "Name"; VString "Age"]; [VString "Ann"; VString "30"]; [VString "Bo"; VString "25"]] in
  let target := extractRangeMatrix xlsx.decode_range (ParsedSheet.matrix sheet) (selected_range None) in
  let processed := processSheet xlsx.decode_range sheet None in
  ProcessedSheet.columns processed
  = buildColumnsFromHeaderRow (default [] (target !! 0%nat)) (max_row_width target)
  /\ length (ProcessedSheet.columns processed) = max_row_width target
  /\ length (ProcessedSheet.rows processed) = (length target - 1)%nat.
Proof.
  apply (processSheet_with_header xlsx.decode_range
           (sheet_of "People"
              [[VString "Name"; VString "Age"]; [VString "Ann"; VString "30"];
               [VString "Bo"; VString "25"]])
           None); [discriminate | simpl; lia].
Defined.

(** ** White space around a range *)

Section Trimming.

Implicit Types (text : string).

Lemma trimEnd_idempotent text : trimEnd (trimEnd text) = trimEnd text.
Proof.
  induction text as [|a text IH]; simpl; [done|].
  destruct (is_js_space a && is_empty (trimEnd text)) eqn:Hdrop; [done|].
  simpl. by rewrite IH, Hdrop.
Qed.

Lemma trimStart_fixed text :
  match text with String a _ => is_js_space a = false | EmptyString => True end ->
  trimStart text = text.
Proof. destruct text as [|a text]; simpl; [done|]. by intros ->. Qed.

Lemma trimStart_head text :
  match trimStart text with String a _ => is_js_space a = false | EmptyString => True end.
Proof.
  induction text as [|a text IH]; simpl; [done|].
  by destruct (is_js_space a) eqn:Ha.
Qed.

Lemma trimEnd_head text :
  match text with String a _ => is_js_space a = false | EmptyString => True end ->
  match trimEnd text with String a _ => is_js_space a = false | EmptyString => True end.
Proof. destruct text as [|a text]; simpl; [done|]. intros Ha. by rewrite Ha. Qed.

Lemma trim_idempotent text : trim (trim text) = trim text.
Proof.
  unfold trim.
  rewrite (trimStart_fixed (trimEnd (trimStart text))) by apply trimEnd_head, trimStart_head.
  apply trimEnd_idempotent.
Qed.

(** X11. White space around a range does not count: a selection whose
    range is padded with spaces, tabs or line breaks is processed like the
    one with the trimmed range, and a range of white space only like no range
    at all (the whole sheet). *)
Theorem processSheet_trims_range
    (decode_range : string -> option xlsx.Range)
    (sheet : ParsedSheet.t) (text : string) (header : option bool) :
  processSheet decode_range sheet (Some {| range := Some text; firstRowIsHeader := header |})
  = processSheet decode_range sheet
      (Some {| range := Some (trim text); firstRowIsHeader := header |})
  /\ (trim text = EmptyString ->
      processSheet decode_range sheet (Some {| range := Some text; firstRowIsHeader := header |})
      = processSheet decode_range sheet (Some {| range := None; firstRowIsHeader := header |})).
Proof.
  rewrite !processSheet_unfold. cbv zeta. unfold selected_range. simpl.
  rewrite trim_idempotent. split; [done|]. by intros ->.
Qed.

End Trimming.

Lemma processSheet_trims_range_witness :
  processSheet xlsx.decode_range (sheet_of "Data" [[VString "Name"]; [VString "Ann"]])
    (Some {| range := Some "   "; firstRowIsHeader := None |})
  = processSheet xlsx.decode_range (sheet_of "Data" [[VString "Name"]; [VString "Ann"]])
      (Some {| range := None; firstRowIsHeader := None |}).
Proof.
  exact (proj2 (processSheet_trims_range xlsx.decode_range
                  (sheet_of "Data" [[VString "Name"]; [VString "Ann"]]) "   " None)
               eq_refl).
Defined.

(** ** The default selection *)

Section DefaultSelection.

Variable decode_range : string -> option xlsx.Range.

Lemma processSheet_default (sheet : ParsedSheet.t) :
  processSheet decode_range sheet
    (Some {| range := Some EmptyString; firstRowIsHeader := Some true |})
  = processSheet decode_range sheet None.
Proof. by rewrite !processSheet_unfold. Qed.

Lemma default_entries_lookup (sheets : list ParsedSheet.t)
    (sheetsConfig : gmap string SheetSelection) (name : string) :
  sheetsConfig !! name = Some {| range := Some EmptyString; firstRowIsHeader := Some true |}
  \/ (exists sheet, sheet ∈ sheets /\ ParsedSheet.name sheet = name) ->
  fold_left
    (fun sheetsConfig sheet =>
       <[ParsedSheet.name sheet :=
           {| range := Some EmptyString; firstRowIsHeader := Some true |}]> sheetsConfig)
    sheets sheetsConfig !! name
  = Some {| range := Some EmptyString; firstRowIsHeader := Some true |}.
Proof.
  revert sheetsConfig. induction sheets as [|first sheets IH]; intros sheetsConfig; simpl.
  - intros [Hhere|(sheet & Hin & _)]; [done|]. by apply elem_of_nil in Hin.
  - intros Hcase. apply IH.
    destruct (decide (ParsedSheet.name first = name)) as [<-|Hne].
    + left. apply lookup_insert_eq.
    + rewrite lookup_insert_ne by done.
      destruct Hcase as [Hhere|(sheet & Hin & Hname)]; [by left|].
      apply elem_of_cons in Hin as [->|Hin]; [done|]. right. by exists sheet.
Qed.

(** X12. The default selection that a freshly parsed workbook gets is the
    same as no selection: applying it processes every sheet over its whole
    matrix with the first row as header, as an empty config does. *)
Theorem applySelection_default_config (parsed : ParsedWorkbook.t) :
  applySelection decode_range parsed (createDefaultSelectionConfig parsed)
  = applySelection decode_range parsed {| config_sheets := None |}
  /\ ProcessedWorkbook.sheets (applySelection decode_range parsed (createDefaultSelectionConfig parsed))
     = map (fun sheet => processSheet decode_range sheet None) (ParsedWorkbook.sheets parsed).
Proof.
  assert (ProcessedWorkbook.sheets
            (applySelection decode_range parsed (createDefaultSelectionConfig parsed))
          = map (fun sheet => processSheet decode_range sheet None) (ParsedWorkbook.sheets parsed))
    as Hsheets.
  { unfold applySelection, createDefaultSelectionConfig.
    cbn [ProcessedWorkbook.sheets config_sheets mbind option_bind].
    apply map_ext_in. intros sheet Hin%list_elem_of_In.
    rewrite default_entries_lookup by (right; by exists sheet).
    apply processSheet_default. }
  split; [|done].
  unfold applySelection in *. simpl in *. by rewrite Hsheets.
Qed.

End DefaultSelection.

(** ** The two CSV serialisers *)

Section Csv.

Implicit Types (columns : list string) (rows : list object) (text : string).

Lemma serialiseValue_plain text :
  needs_quoting text = false -> serialiseValue (VString text) = text.
Proof. unfold serialiseValue. simpl. by intros ->. Qed.

(** X13. On a column list that is not empty and holds no comma, double
    quote or line feed, the applier's [rowsToCsv] and the parser's [buildCsv]
    write the same text: the two serialisers differ in the header line only. *)
Theorem rowsToCsv_agrees_with_buildCsv columns rows :
  columns <> [] ->
  Forall (fun column => needs_quoting column = false) columns ->
  rowsToCsv columns rows = buildCsv columns rows.
Proof.
  intros Hne Hplain. rewrite rowsToCsv_data_lines by done. unfold buildCsv.
  assert (map (fun column => serialiseValue (VString column)) columns = columns) as ->; [|done].
  clear Hne. induction Hplain as [|column columns Hcolumn _ IH]; [done|].
  cbn [map]. by rewrite serialiseValue_plain, IH.
Qed.

Lemma rowsToCsv_agrees_with_buildCsv_witness :
  rowsToCsv ["Name"; "Age"] [object_of [("Name", VString "O'Hara, Ann"); ("Age", VNumber "30")]]
  = buildCsv ["Name"; "Age"] [object_of [("Name", VString "O'Hara, Ann"); ("Age", VNumber "30")]].
Proof.
  apply (rowsToCsv_agrees_with_buildCsv ["Name"; "Age"]
           [object_of [("Name", VString "O'Hara, Ann"); ("Age", VNumber "30")]]);
    [discriminate | repeat constructor].
Defined.

Lemma double_quotes_tail_inj (text text' : string) :
  double_quotes text +:+ String dquote EmptyString
  = double_quotes text' +:+ String dquote EmptyString ->
  text = text'.
Proof.
  revert text'. induction text as [|a text IH]; intros [|a' text']; simpl; [done| | |].
  - destruct (Ascii.eqb_spec a' dquote) as [->|Hne]; simpl; [done|].
    intros [= <- _]. done.
  - destruct (Ascii.eqb_spec a dquote) as [->|Hne]; simpl; [done|].
    intros [= -> _]. done.
  - destruct (Ascii.eqb_spec a dquote) as [->|Hne], (Ascii.eqb_spec a' dquote) as [->|Hne'];
      simpl.
    + intros [= Heq]. f_equal. by apply IH.
    + intros [= <- _]. done.
    + intros [= -> _]. done.
    + intros [= -> Heq]. f_equal. by apply IH.
Qed.

Lemma needs_quoting_no_quote text :
  needs_quoting text = false ->
  match text with String a _ => a <> dquote | EmptyString => True end.
Proof.
  destruct text as [|a text]; [done|]. unfold needs_quoting. simpl.
  intros [[[Ha _]%orb_false_elim _]%orb_false_elim _]%orb_false_elim.
  by apply Ascii.eqb_neq.
Qed.

(** X14. Different texts are written as different CSV fields: whether it
    wraps a text in quotes or not, [serialiseValue] never writes two
    different strings the same way. *)
Theorem serialiseValue_injective_on_text (text text' : string) :
  serialiseValue (VString text) = serialiseValue (VString text') -> text = text'.
Proof.
  unfold serialiseValue. simpl.
  destruct (needs_quoting text) eqn:Hq, (needs_quoting text') eqn:Hq'.
  - unfold quoted. intros [= Heq]. by apply double_quotes_tail_inj.
  - unfold quoted. intros <-. by apply needs_quoting_no_quote in Hq'.
  - unfold quoted. intros ->. by apply needs_quoting_no_quote in Hq.
  - done.
Qed.

Lemma serialiseValue_injective_on_text_witness : "a,b" = "a,b".
Proof. apply (serialiseValue_injective_on_text "a,b" "a,b"). reflexivity. Defined.

End Csv.

(** ** Table names *)

Section TableNames.

Implicit Types (text : string).

Lemma string_forallb_impl (p q : ascii -> bool) text :
  (forall a, p a = true -> q a = true) ->
  string_forallb p text = true -> string_forallb q text = true.
Proof.
  intros Hpq. induction text as [|a text IH]; simpl; [done|].
  intros [Ha Htext]%andb_prop. by rewrite (Hpq a Ha), IH.
Qed.

Lemma string_forallb_app (p : ascii -> bool) text text' :
  string_forallb p (text +:+ text') = string_forallb p text && string_forallb p text'.
Proof. induction text as [|a text IH]; simpl; [done|]. by rewrite IH, andb_assoc. Qed.

Lemma is_digit_name_char (a : ascii) : xlsx.is_digit a = true -> is_name_char a = true.
Proof.
  unfold xlsx.is_digit, is_name_char, is_lower_alnum. intros ->. by rewrite orb_true_r.
Qed.

Lemma collapse_non_alnum_chars (in_run : bool) text :
  string_forallb is_name_char (collapse_non_alnum in_run text) = true.
Proof.
  revert in_run. induction text as [|a text IH]; intros in_run; simpl; [done|].
  destruct (is_lower_alnum a) eqn:Ha; simpl.
  - unfold is_name_char at 1. by rewrite Ha, IH.
  - destruct in_run; simpl; by rewrite IH.
Qed.

Lemma strip_leading_chars (p : ascii -> bool) text :
  string_forallb p text = true -> string_forallb p (strip_leading_underscores text) = true.
Proof.
  induction text as [|a text IH]; simpl; [done|].
  intros [Ha Htext]%andb_prop. destruct (Ascii.eqb a "_"); [by apply IH|].
  simpl. by rewrite Ha, Htext.
Qed.

Lemma strip_trailing_chars (p : ascii -> bool) text :
  string_forallb p text = true -> string_forallb p (strip_trailing_underscores text) = true.
Proof.
  induction text as [|a text IH]; simpl; [done|].
  intros [Ha Htext]%andb_prop.
  destruct (Ascii.eqb a "_" && is_empty (strip_trailing_underscores text)); [done|].
  simpl. by rewrite Ha, IH.
Qed.

Lemma strip_trailing_idempotent text :
  strip_trailing_underscores (strip_trailing_underscores text) = strip_trailing_underscores text.
Proof.
  induction text as [|a text IH]; simpl; [done|].
  destruct (Ascii.eqb a "_" && is_empty (strip_trailing_underscores text)) eqn:Hdrop; [done|].
  simpl. by rewrite IH, Hdrop.
Qed.

Lemma strip_leading_head text :
  match strip_leading_underscores text with
  | String a _ => Ascii.eqb a "_" = false
  | EmptyString => True
  end.
Proof.
  induction text as [|a text IH]; simpl; [done|]. by destruct (Ascii.eqb a "_") eqn:Ha.
Qed.

Lemma strip_leading_fixed text :
  match text with String a _ => Ascii.eqb a "_" = false | EmptyString => True end ->
  strip_leading_underscores text = text.
Proof. destruct text as [|a text]; simpl; [done|]. by intros ->. Qed.

Lemma strip_trailing_head text :
  match text with String a _ => Ascii.eqb a "_" = false | EmptyString => True end ->
  match strip_trailing_underscores text with
  | String a _ => Ascii.eqb a "_" = false
  | EmptyString => True
  end.
Proof. destruct text as [|a text]; simpl; [done|]. intros Ha. by rewrite Ha. Qed.

Lemma strip_trailing_fixed text text' :
  is_empty text' = false ->
  string_forallb (fun a => negb (Ascii.eqb a "_")) text' = true ->
  strip_trailing_underscores (text +:+ text') = text +:+ text'.
Proof.
  intros Hne Hchars.
  assert (strip_trailing_underscores text' = text') as Htail.
  { clear Hne. induction text' as [|a text' IH]; simpl in *; [done|].
    apply andb_prop in Hchars as [Ha Htext']. rewrite IH by done.
    apply negb_true_iff in Ha. by rewrite Ha. }
  induction text as [|a text IH]; simpl; [done|].
  rewrite IH. change (String a text +:+ text') with (String a (text +:+ text')).
  destruct (text +:+ text') eqn:Happ; [|simpl; by rewrite andb_false_r].
  by destruct text, text'.
Qed.

(** X15. Whatever the file name, the sheet name and the index, the table
    name is not empty, consists of small letters, digits and underscores
    only, and neither starts nor ends with an underscore; so it holds no
    quote, dot, space or capital letter. *)
Theorem normaliseTableName_identifier (fileName sheetName : string) (index : nat) :
  let tableName := normaliseTableName fileName sheetName index in
  is_empty tableName = false
  /\ string_forallb is_name_char tableName = true
  /\ strip_leading_underscores tableName = tableName
  /\ strip_trailing_underscores tableName = tableName
  /\ has_char dquote tableName = false.
Proof.
  intros tableName.
  assert (is_empty tableName = false
          /\ string_forallb is_name_char tableName = true
          /\ strip_leading_underscores tableName = tableName
          /\ strip_trailing_underscores tableName = tableName) as (Hne & Hchars & Hlead & Htrail).
  { subst tableName. unfold normaliseTableName.
    set (positional := "sheet_" +:+ Number_toString (Z.of_nat index + 1)).
    set (baseName := strip_trailing_underscores _).
    assert (is_empty positional = false
            /\ string_forallb is_name_char positional = true
            /\ strip_leading_underscores positional = positional
            /\ strip_trailing_underscores positional = positional) as Hpositional.
    { subst positional. unfold Number_toString.
      destruct (Z.ltb_spec (Z.of_nat index + 1) 0); [lia|].
      split; [done|]. split; [|split; [done|]].
      - rewrite string_forallb_app. simpl.
        apply (string_forallb_impl _ _ _ is_digit_name_char), decimal_digits.
      - apply strip_trailing_fixed; [apply decimal_nonempty|].
        apply (string_forallb_impl xlsx.is_digit); [|apply decimal_digits].
        intros a Ha. destruct (Ascii.eqb_spec a "_") as [->|]; [|done].
        vm_compute in Ha. discriminate. }
    rewrite length_positive_nonempty.
    destruct (is_empty baseName) eqn:Hbase; [done|]. simpl.
    split; [done|]. subst baseName. split; [|split].
    - apply strip_trailing_chars, strip_leading_chars, collapse_non_alnum_chars.
    - apply strip_leading_fixed, strip_trailing_head, strip_leading_head.
    - apply strip_trailing_idempotent. }
  repeat (split; [done|]).
  apply (string_existsb_none _ is_name_char); [|done].
  intros a Ha. destruct (Ascii.eqb_spec a dquote) as [->|]; [|done].
  vm_compute in Ha. discriminate.
Qed.

End TableNames.

(** ** Registering what the applier produced *)

Section Registering.

Variable decode_range : string -> option xlsx.Range.
Variable engine_create : string -> string -> outcome unit.

Implicit Types (text : string) (columns : list string).

Lemma trim_starts_with_text text : is_empty (trim text) = false -> starts_with_text (trim text).
Proof.
  unfold trim. intros Hne.
  pose proof (trimEnd_head (trimStart text) (trimStart_head text)) as Hhead.
  by destruct (trimEnd (trimStart text)).
Qed.

Lemma column_choice_starts_with_text text (index : nat) :
  starts_with_text (if (0 <? String.length (trim text))%nat then trim text else fallback_column index).
Proof.
  rewrite length_positive_nonempty. destruct (is_empty (trim text)) eqn:Hempty; cbn [negb].
  - by rewrite fallback_column_spec.
  - by apply trim_starts_with_text.
Qed.

Lemma header_text_trimmed (raw : option value) : exists text, header_text raw = trim text.
Proof.
  destruct raw as [[]|]; simpl;
    first [by exists EmptyString | eexists; reflexivity].
Qed.

Lemma buildColumnsFromHeaderRow_start (headerRow : list value) (width : nat) :
  Forall starts_with_text (buildColumnsFromHeaderRow headerRow width).
Proof.
  apply Forall_lookup. intros index name [_ ->]%buildColumnsFromHeaderRow_lookup.
  destruct (header_text_trimmed (headerRow !! index)) as [text ->].
  apply column_choice_starts_with_text.
Qed.

Lemma buildGeneratedColumns_start (width : nat) :
  Forall starts_with_text (buildGeneratedColumns width).
Proof.
  unfold buildGeneratedColumns. apply Forall_map, Forall_forall. intros index _.
  by rewrite fallback_column_spec.
Qed.

Lemma concat_starts_with_text (separator : string) (first : string) (rest : list string) :
  starts_with_text first -> starts_with_text (String.concat separator (first :: rest)).
Proof. destruct first as [|a first]; [done|]. by destruct rest. Qed.

Lemma rowsToCsv_starts_with_text columns (rows : list object) :
  columns <> [] -> Forall starts_with_text columns -> starts_with_text (rowsToCsv columns rows).
Proof.
  intros Hne Hstart. rewrite rowsToCsv_data_lines by done.
  destruct Hstart as [|column columns Hcolumn _]; [done|].
  by apply concat_starts_with_text, concat_starts_with_text.
Qed.

Lemma registerCsvAsTable_with_text (tableName csv : string) :
  starts_with_text csv -> registerCsvAsTable engine_create tableName csv = engine_create tableName csv.
Proof.
  destruct csv as [|a csv]; [done|]. simpl. intros Ha.
  unfold registerCsvAsTable, trim. simpl. rewrite Ha. simpl. by rewrite Ha.
Qed.

Lemma processSheet_csv_starts_with_text (sheet : ParsedSheet.t) (selection : option SheetSelection) :
  has_data (processSheet decode_range sheet selection) = true ->
  starts_with_text (ProcessedSheet.csv (processSheet decode_range sheet selection)).
Proof.
  rewrite processSheet_unfold. cbv zeta.
  set (target := extractRangeMatrix decode_range _ _).
  destruct (Nat.eqb_spec (max_row_width target) 0) as [|Hwidth]; [done|].
  intros _. simpl.
  destruct (match selection ≫= firstRowIsHeader with Some false => false | _ => true end).
  - apply rowsToCsv_starts_with_text; [|apply buildColumnsFromHeaderRow_start].
    unfold buildColumnsFromHeaderRow. destruct (max_row_width target); [done|discriminate].
  - apply rowsToCsv_starts_with_text; [|apply buildGeneratedColumns_start].
    unfold buildGeneratedColumns. destruct (max_row_width target); [done|discriminate].
Qed.

Lemma sync_loop_succeeds (fileName : string) (entries : list (nat * ProcessedSheet.t))
    (newMap : gmap string string) (calls : list (string * string)) :
  (forall index sheet,
      (index, sheet) ∈ entries -> has_data sheet = true ->
      registerCsvAsTable engine_create
        (normaliseTableName fileName (ProcessedSheet.name sheet) index) (ProcessedSheet.csv sheet)
      = Returned ()) ->
  exists settled, (sync_loop engine_create fileName entries newMap calls).2 = Returned settled.
Proof.
  revert newMap calls. induction entries as [|[index sheet] entries IH]; intros newMap calls Hok.
  - by eexists.
  - rewrite sync_loop_cons. destruct (has_data sheet) eqn:Hdata; cbv zeta.
    + rewrite (Hok index sheet) by (done || apply list_elem_of_here).
      apply IH. intros i s Hin. apply Hok. by apply list_elem_of_further.
    + apply IH. intros i s Hin. apply Hok. by apply list_elem_of_further.
Qed.

(** X16. The sheets that [applySelection] produces never trip the
    empty-CSV check of [registerCsvAsTable]: for a sheet with data the
    outcome of a registration is the engine's alone. So a sync of such a
    workbook on an engine that accepts every table succeeds. *)
Theorem sync_of_applySelection
    (workbook : ParsedWorkbook.t) (config : WorkbookSelectionConfig)
    (prevTableMap : gmap string string) :
  let processed := applySelection decode_range workbook config in
  (forall sheet tableName,
      sheet ∈ ProcessedWorkbook.sheets processed ->
      has_data sheet = true ->
      registerCsvAsTable engine_create tableName (ProcessedSheet.csv sheet)
      = engine_create tableName (ProcessedSheet.csv sheet))
  /\ ((forall tableName csv, engine_create tableName csv = Returned ()) ->
      exists newMap,
        result (syncTablesWithProcessed engine_create prevTableMap processed) = Returned newMap).
Proof.
  intros processed.
  assert (forall sheet tableName,
             sheet ∈ ProcessedWorkbook.sheets processed ->
             has_data sheet = true ->
             registerCsvAsTable engine_create tableName (ProcessedSheet.csv sheet)
             = engine_create tableName (ProcessedSheet.csv sheet)) as Hguard.
  { intros sheet tableName Hin Hdata. apply registerCsvAsTable_with_text.
    subst processed. unfold applySelection in Hin. simpl in Hin.
    apply list_elem_of_fmap in Hin as (parsed & -> & _).
    by apply processSheet_csv_starts_with_text. }
  split; [done|]. intros Haccepts.
  destruct (sync_loop_succeeds (ProcessedWorkbook.fileName processed)
              (zip (seq 0 (length (ProcessedWorkbook.sheets processed)))
                   (ProcessedWorkbook.sheets processed)) ∅ []) as [settled Hsettled].
  { intros index sheet Hin Hdata. rewrite Hguard; [done| |done].
    apply entries_lookup in Hin as [_ Hin]. apply list_elem_of_lookup. by eexists. }
  exists settled. unfold syncTablesWithProcessed.
  by destruct (sync_loop _ _ _ _ _).
Qed.

(** What a successful loop leaves in the map: the bindings it was given,
    and one under the name of every sheet with data. *)
Lemma sync_loop_binds (fileName : string) (entries : list (nat * ProcessedSheet.t))
    (newMap : gmap string string) (calls : list (string * string)) (settled : gmap string string) :
  (sync_loop engine_create fileName entries newMap calls).2 = Returned settled ->
  (forall name, is_Some (newMap !! name) -> is_Some (settled !! name))
  /\ (newMap !! "__proto__" = None -> settled !! "__proto__" = None)
  /\ (forall index sheet,
        (index, sheet) ∈ entries -> has_data sheet = true ->
        ProcessedSheet.name sheet <> "__proto__" ->
        is_Some (settled !! ProcessedSheet.name sheet)).
Proof.
  revert newMap calls. induction entries as [|[index sheet] entries IH]; intros newMap calls.
  - simpl. intros [= <-]. split; [done|]. split; [done|].
    intros i s Hin. by apply elem_of_nil in Hin.
  - rewrite sync_loop_cons. destruct (has_data sheet) eqn:Hdata; cbv zeta.
    + destruct (registerCsvAsTable _ _ _) as [[]|err]; [|done].
      intros (Hkept & Hproto & Hbound)%IH. split; [|split].
      * intros name Hname. apply Hkept. unfold mapping_set.
        destruct (decide (ProcessedSheet.name sheet = "__proto__")); [done|].
        destruct (decide (ProcessedSheet.name sheet = name)) as [->|];
          [by rewrite lookup_insert_eq|by rewrite lookup_insert_ne].
      * intros Hnone. apply Hproto. unfold mapping_set.
        destruct (decide (ProcessedSheet.name sheet = "__proto__")); [done|].
        by rewrite lookup_insert_ne.
      * intros i s [[= -> ->]|Hin]%elem_of_cons Hs Hname; [|by apply (Hbound i s)].
        apply Hkept. unfold mapping_set.
        destruct (decide (ProcessedSheet.name sheet = "__proto__")); [done|].
        by rewrite lookup_insert_eq.
    + intros (Hkept & Hproto & Hbound)%IH. split; [done|]. split; [done|].
      intros i s [[= -> ->]|Hin]%elem_of_cons Hs Hname; [congruence|by apply (Hbound i s)].
Qed.

(** X17. After a sync that succeeds, every sheet with at least one row and
    one column has a table under its name in the mapping, except a sheet
    named [__proto__]: that name is never bound, though its table is
    registered like any other. *)
Theorem syncTablesWithProcessed_binds_sheets_with_data
    (prevTableMap : gmap string string) (processed : ProcessedWorkbook.t)
    (newMap : gmap string string) :
  result (syncTablesWithProcessed engine_create prevTableMap processed) = Returned newMap ->
  (forall sheet,
      sheet ∈ ProcessedWorkbook.sheets processed ->
      has_data sheet = true ->
      ProcessedSheet.name sheet <> "__proto__" ->
      is_Some (newMap !! ProcessedSheet.name sheet))
  /\ newMap !! "__proto__" = None.
Proof.
  unfold syncTablesWithProcessed.
  destruct (sync_loop _ _ _ _ _) as [calls settled] eqn:Hloop. simpl. intros ->.
  pose proof (sync_loop_binds (ProcessedWorkbook.fileName processed)
                (zip (seq 0 (length (ProcessedWorkbook.sheets processed)))
                     (ProcessedWorkbook.sheets processed)) ∅ [] newMap) as Hbinds.
  rewrite Hloop in Hbinds. destruct (Hbinds eq_refl) as (_ & Hproto & Hbound).
  split; [|by apply Hproto].
  intros sheet [index Hsheet]%list_elem_of_lookup Hdata Hname.
  apply (Hbound index sheet); [|done|done].
  clear -Hsheet. revert index Hsheet.
  generalize (ProcessedWorkbook.sheets processed). intros sheets.
  assert (forall first index, sheets !! index = Some sheet ->
            ((first + index)%nat, sheet) ∈ zip (seq first (length sheets)) sheets) as Hzip.
  { induction sheets as [|s sheets IH]; intros first [|index] Hlookup; simpl in *; try done.
    - injection Hlookup as ->. rewrite Nat.add_0_r. apply list_elem_of_here.
    - apply list_elem_of_further. rewrite <- Nat.add_succ_comm. by apply IH. }
  intros index. apply (Hzip 0%nat).
Qed.

End Registering.

(** Two sheets with data, one of them named [__proto__], on an engine that
    accepts every table. *)
Lemma syncTablesWithProcessed_binds_sheets_with_data_witness :
  let sheet := fun name =>
    {| ProcessedSheet.name := name;
       ProcessedSheet.columns := ["Name"];
       ProcessedSheet.rows := [object_of [("Name", VString "Ann")]];
       ProcessedSheet.csv := "Name" +:+ newline +:+ "Ann" |} in
  let processed :=
    {| ProcessedWorkbook.fileName := "Book.xlsx";
       ProcessedWorkbook.sheets := [sheet "Data"; sheet "__proto__"] |} in
  registered (syncTablesWithProcessed (fun _ _ => Returned ()) ∅ processed)
  = [("book_data", "Name" +:+ newline +:+ "Ann"); ("book_proto", "Name" +:+ newline +:+ "Ann")]
  /\ ((forall s,
         s ∈ ProcessedWorkbook.sheets processed ->
         has_data s = true ->
         ProcessedSheet.name s <> "__proto__" ->
         is_Some (({[ "Data" := "book_data" ]} : gmap string string) !! ProcessedSheet.name s))
      /\ ({[ "Data" := "book_data" ]} : gmap string string) !! "__proto__" = None).
Proof.
  split; [vm_compute; reflexivity|].
  apply (syncTablesWithProcessed_binds_sheets_with_data (fun _ _ => Returned ()) ∅
           {| ProcessedWorkbook.fileName := "Book.xlsx";
              ProcessedWorkbook.sheets :=
                [ {| ProcessedSheet.name := "Data";
                     ProcessedSheet.columns := ["Name"];
                     ProcessedSheet.rows := [object_of [("Name", VString "Ann")]];
                     ProcessedSheet.csv := "Name" +:+ newline +:+ "Ann" |};
                  {| ProcessedSheet.name := "__proto__";
                     ProcessedSheet.columns := ["Name"];
                     ProcessedSheet.rows := [object_of [("Name", VString "Ann")]];
                     ProcessedSheet.csv := "Name" +:+ newline +:+ "Ann" |} ] |}
           {[ "Data" := "book_data" ]}).
  vm_compute. reflexivity.
Defined.

(** ** What the two patterns match *)

(** X18. The JSON text taken from a reply is the text from its first
    opening brace to its last closing brace, and there is one exactly when
    a closing brace follows an opening one. (A reply with two objects thus
    yields one text that spans both.) *)
Theorem match_json_spec (response jsonText : string) :
  match_json response = Some jsonText <->
  exists before inside after,
    response = before +:+ "{" +:+ inside +:+ "}" +:+ after
    /\ jsonText = "{" +:+ inside +:+ "}"
    /\ has_char "{" before = false
    /\ has_char "}" after = false.
Proof.
  split; [apply match_json_some|].
  intros (before & inside & after & -> & -> & Hbefore & Hafter).
  by apply match_json_found.
Qed.

(** X19. The statement taken from a reply starts with the word SELECT in
    any letter case and ends at the first semicolon after the word, and
    there is one whenever the reply holds the word with a semicolon
    somewhere after it. *)
Theorem match_select_spec (response : string) :
  (forall sql,
      match_select response = Some sql ->
      exists before word inside after,
        response = before +:+ word +:+ inside +:+ ";" +:+ after
        /\ sql = word +:+ inside +:+ ";"
        /\ upper_text word = "SELECT"
        /\ has_char ";" inside = false)
  /\ (forall before word inside after,
        response = before +:+ word +:+ inside +:+ ";" +:+ after ->
        upper_text word = "SELECT" ->
        is_Some (match_select response)).
Proof.
  split; [apply match_select_some|].
  intros before word inside after -> Hword. by apply match_select_found.
Qed.

Lemma match_select_spec_witness :
  exists before word inside after,
    "Try: Select a; from t;" = before +:+ word +:+ inside +:+ ";" +:+ after
    /\ "Select a;" = word +:+ inside +:+ ";"
    /\ upper_text word = "SELECT"
    /\ has_char ";" inside = false.
Proof.
  exact (proj1 (match_select_spec "Try: Select a; from t;") "Select a;" eq_refl).
Defined.

(** ** Loading the configuration and chatting *)

Section Chat.

Variable fetch_config : outcome (Response.t (option AzureOpenAIConfig)).
Variable fetch_chat : ChatRequest -> outcome (Response.t ChatCompletionResponse).

(** X20. [loadConfig] without a cached configuration returns one only when
    all four fields are present, and then caches it; every failure, of
    whatever kind, surfaces as the one "missing environment variables"
    error. But a configuration that fails the check has been cached before
    the check: the next call returns it, unchecked. *)
Theorem loadConfig_outcomes
    (fetched : outcome (Response.t (option AzureOpenAIConfig)))
    (cache : option AzureOpenAIConfig) :
  (forall cfg,
      loadConfig None fetched = (cache, Returned cfg) ->
      cache = Some cfg
      /\ is_empty (endpoint cfg) = false /\ is_empty (apiKey cfg) = false
      /\ is_empty (deployment cfg) = false /\ is_empty (apiVersion cfg) = false)
  /\ (forall config message,
        loadConfig config fetched = (cache, Thrown message) ->
        config = None /\ message = MISSING_CONFIGURATION)
  /\ (forall message cfg later,
        loadConfig None fetched = (cache, Thrown message) ->
        cache = Some cfg ->
        loadConfig cache later = (cache, Returned cfg)
        /\ is_empty (endpoint cfg) || is_empty (apiKey cfg)
           || is_empty (deployment cfg) || is_empty (apiVersion cfg) = true).
Proof.
  split; [|split].
  - intros cfg. unfold loadConfig.
    destruct fetched as [response|]; [|done].
    destruct (Response.ok response); simpl; [|done].
    destruct (Response.json response) as [[data|]|]; [|done|done].
    destruct (_ || _) eqn:Hfields; [done|]. intros [= <- <-].
    repeat apply orb_false_elim in Hfields as [Hfields ?]. done.
  - intros config message. unfold loadConfig.
    destruct config as [cached|]; [done|].
    destruct fetched as [response|]; [|by intros [= _ <-]].
    destruct (Response.ok response); simpl; [|by intros [= _ <-]].
    destruct (Response.json response) as [[data|]|]; try (by intros [= _ <-]).
    destruct (_ || _); [by intros [= _ <-]|done].
  - intros message cfg later. unfold loadConfig at 1.
    destruct fetched as [response|]; [|by intros [= <-]].
    destruct (Response.ok response); simpl; [|by intros [= <-]].
    destruct (Response.json response) as [[data|]|]; try (by intros [= <-]).
    destruct (_ || _) eqn:Hfields; [|done].
    intros [= <- _] [= <-]. done.
Qed.

(** X21. When [chatWithAzureOpenAI] returns, it returns a text that is not
    empty: an empty or absent reply of the model is replaced by "No response
    from AI". *)
Theorem chatWithAzureOpenAI_reply_not_empty
    (config : option AzureOpenAIConfig) (messages : list ChatMessage)
    (systemPrompt : option string) (response : string) :
  chatWithAzureOpenAI fetch_config fetch_chat config messages systemPrompt = Returned response ->
  response <> EmptyString.
Proof.
  unfold chatWithAzureOpenAI.
  destruct (loadConfig config fetch_config).2 as [cfg|]; [|done].
  destruct (fetch_chat _) as [reply|]; [|done].
  destruct (Response.ok reply); simpl.
  - destruct (Response.json reply) as [data|]; [|done]. intros [= <-].
    destruct (choices data !! 0%nat) as [message|]; [|done].
    by destruct (content message).
  - by destruct (Response.text reply).
Qed.

End Chat.

(** A key is missing in what the server sends: the call fails, and the next
    call returns that configuration. *)
Lemma loadConfig_outcomes_witness :
  let partial :=
    {| endpoint := "https://example.openai.azure.com"; apiKey := EmptyString;
       deployment := "gpt"; apiVersion := "2024-02-01" |} in
  loadConfig (Some partial) (Thrown "offline") = (Some partial, Returned partial)
  /\ is_empty (endpoint partial) || is_empty (apiKey partial)
     || is_empty (deployment partial) || is_empty (apiVersion partial) = true.
Proof.
  exact (proj2 (proj2 (loadConfig_outcomes
           (Returned {| Response.ok := true; Response.status := 200;
                        Response.text := Returned "{}";
                        Response.json :=
                          Returned (Some {| endpoint := "https://example.openai.azure.com";
                                            apiKey := EmptyString;
                                            deployment := "gpt";
                                            apiVersion := "2024-02-01" |}) |})
           (Some {| endpoint := "https://example.openai.azure.com"; apiKey := EmptyString;
                    deployment := "gpt"; apiVersion := "2024-02-01" |})))
         MISSING_CONFIGURATION
         {| endpoint := "https://example.openai.azure.com"; apiKey := EmptyString;
            deployment := "gpt"; apiVersion := "2024-02-01" |}
         (Thrown "offline") eq_refl eq_refl).
Defined.

(** The model answers with an empty text. *)
Lemma chatWithAzureOpenAI_reply_not_empty_witness : "No response from AI" <> EmptyString.
Proof.
  apply (chatWithAzureOpenAI_reply_not_empty
           (Thrown "not fetched")
           (fun _ => Returned {| Response.ok := true; Response.status := 200;
                                 Response.text := Returned "";
                                 Response.json :=
                                   Returned {| choices := [ {| role := "assistant";
                                                               content := EmptyString |} ] |} |})
           (Some {| endpoint := "https://example.openai.azure.com/"; apiKey := "key";
                    deployment := "gpt"; apiVersion := "2024-02-01" |})
           [ {| role := "user"; content := "Hello" |} ] None "No response from AI").
  reflexivity.
Defined.

(** ** The chat panel *)

(** X22. Sending a question that is not blank while no request is pending
    adds exactly two messages, the user's question and one reply of the
    assistant, whether the suggestion service answered or failed; a failure
    becomes a reply without a query. The input is cleared and the panel is
    ready again. A blank question, or one sent while a request is pending,
    changes nothing. *)
Theorem handleSend_always_replies
    (suggest : string -> outcome (QuerySuggestion json)) (st : ChatBot.State) :
  (is_empty (trim (ChatBot.input st)) = false -> ChatBot.isLoading st = false ->
   exists reply,
     ChatBot.messages (ChatBot.handleSend suggest st)
     = ChatBot.messages st
         ++ [ {| ChatBot.role := "user";
                 ChatBot.content := JString (ChatBot.input st);
                 ChatBot.query := None |}; reply ]
     /\ ChatBot.role reply = "assistant"
     /\ (forall message, suggest (ChatBot.input st) = Thrown message -> ChatBot.query reply = None)
     /\ ChatBot.input (ChatBot.handleSend suggest st) = EmptyString
     /\ ChatBot.isLoading (ChatBot.handleSend suggest st) = false)
  /\ (is_empty (trim (ChatBot.input st)) = true \/ ChatBot.isLoading st = true ->
      ChatBot.handleSend suggest st = st).
Proof.
  unfold ChatBot.handleSend. split.
  - intros -> ->. simpl. eexists. split; [done|].
    destruct (suggest (ChatBot.input st)) as [[suggested explained]|message]; simpl; by repeat split.
  - intros [->| ->]; [done|]. by rewrite orb_true_r.
Qed.

Lemma handleSend_always_replies_witness :
  let st := {| ChatBot.messages := []; ChatBot.input := "How many rows?"; ChatBot.isLoading := false |} in
  let suggest := fun _ : string => @Thrown (QuerySuggestion json) "Failed to fetch" in
  exists reply,
    ChatBot.messages (ChatBot.handleSend suggest st)
    = ChatBot.messages st
        ++ [ {| ChatBot.role := "user";
                ChatBot.content := JString (ChatBot.input st);
                ChatBot.query := None |}; reply ]
    /\ ChatBot.role reply = "assistant"
    /\ (forall message, suggest (ChatBot.input st) = Thrown message -> ChatBot.query reply = None)
    /\ ChatBot.input (ChatBot.handleSend suggest st) = EmptyString
    /\ ChatBot.isLoading (ChatBot.handleSend suggest st) = false.
Proof.
  exact (proj1 (handleSend_always_replies
                  (fun _ : string => @Thrown (QuerySuggestion json) "Failed to fetch")
                  {| ChatBot.messages := []; ChatBot.input := "How many rows?";
                     ChatBot.isLoading := false |})
               eq_refl eq_refl).
Defined.

(** ** The engine handle *)

Section EngineHandle.

Variable instantiates : bool.

Import DuckDB.

Lemma call_consistent (c : Call) (st : State) :
  consistent instantiates st ->
  consistent instantiates (call instantiates c st)
  /\ (reaches_getter c = true -> dbInstancePromise (call instantiates c st) = true)
  /\ (reaches_getter c = false -> call instantiates c st = st).
Proof.
  intros (Hi & Hc & Hdb). unfold consistent.
  destruct c as [| |tableName csv|query|tableName]; simpl;
    try destruct (is_empty csv || _); simpl;
    unfold getDuckDBConnection, getDuckDB;
    destruct (dbInstancePromise st) eqn:Hd, (connectionPromise st) eqn:Hcp;
    try (by specialize (Hdb eq_refl));
    destruct instantiates; simpl in *; rewrite ?Hd, ?Hcp; simpl;
    repeat split; try done; lia.
Qed.

Lemma run_consistent (calls : list Call) (st : State) :
  consistent instantiates st ->
  consistent instantiates (run instantiates calls st)
  /\ dbInstancePromise (run instantiates calls st)
     = dbInstancePromise st || existsb reaches_getter calls.
Proof.
  revert st. induction calls as [|c calls IH]; intros st Hst.
  - split; [done|]. simpl. by rewrite orb_false_r.
  - destruct (call_consistent c st Hst) as (Hnext & Hset & Hskip).
    destruct (IH _ Hnext) as [Hrun Hlater]. split; [done|].
    change (run instantiates (c :: calls) st)
      with (run instantiates calls (call instantiates c st)).
    rewrite Hlater. simpl. destruct (reaches_getter c).
    + rewrite Hset by done. simpl. by rewrite orb_true_r.
    + by rewrite Hskip.
Qed.

(** X23. Whatever exported functions of the engine module are called, with
    whatever arguments, in whatever order and number, the engine is
    instantiated exactly once if some call got as far as a getter (every
    call does, except a registration of an empty or blank CSV, which throws
    first) and not at all otherwise; it is connected to at most once: exactly
    once if the instantiation succeeds and a connection was asked for, and
    never if it fails. A failed instantiation is not tried again. *)
Theorem engine_made_once (calls : list Call) :
  let st := run instantiates calls fresh in
  instantiations st = (if existsb reaches_getter calls then 1 else 0)%nat
  /\ (connects st <= 1)%nat
  /\ (instantiates = false -> connects st = 0%nat)
  /\ (instantiates = true -> connectionPromise st = true -> connects st = 1%nat).
Proof.
  destruct (run_consistent calls fresh) as [(Hi & Hc & Hdb) Hset]; [done|].
  simpl. rewrite Hi, Hc, Hset. repeat split.
  - destruct (_ && _); lia.
  - intros ->. by rewrite andb_false_r.
  - by intros -> ->.
Qed.

(** A blank registration first, then a query twice. *)
Example engine_made_once_example :
  instantiations (run true [RegisterCsvAsTable "t" EmptyString] fresh) = 0%nat
  /\ instantiations (run true [RegisterCsvAsTable "t" " "; RunQuery "SELECT 1;";
                               RunQuery "SELECT 1;"] fresh) = 1%nat
  /\ connects (run true [RegisterCsvAsTable "t" " "; RunQuery "SELECT 1;";
                         RunQuery "SELECT 1;"] fresh) = 1%nat.
Proof. by vm_compute. Qed.

End EngineHandle.

(** ** The round trip on the package's decoder *)

Lemma decode_cell_loop_letters (letters rest : string) (R C : Z) :
  string_forallb xlsx.is_upper letters = true ->
  utils.decode_cell_loop R C (letters +:+ rest)
  = utils.decode_cell_loop R (xlsx.letters_value C letters) rest.
Proof.
  revert C. induction letters as [|a letters IH]; intros C Hupper; [done|].
  simpl in Hupper. apply andb_prop in Hupper as [Ha Hupper].
  change (String a letters +:+ rest) with (String a (letters +:+ rest)).
  cbn [utils.decode_cell_loop xlsx.letters_value].
  unfold xlsx.is_upper in Ha. rewrite Ha.
  apply andb_prop in Ha as [Ha _]. apply Z.leb_le in Ha.
  replace (charCode a <=? 57) with false by (symmetry; apply Z.leb_gt; lia).
  rewrite andb_false_r. by apply IH.
Qed.

Lemma decode_cell_loop_digits (digits : string) (R C : Z) :
  string_forallb xlsx.is_digit digits = true ->
  utils.decode_cell_loop R C digits
  = {| xlsx.r := xlsx.digits_value R digits - 1; xlsx.c := C - 1 |}.
Proof.
  revert R. induction digits as [|a digits IH]; intros R Hdigits; [done|].
  simpl in Hdigits. apply andb_prop in Hdigits as [Ha Hdigits].
  cbn [utils.decode_cell_loop xlsx.digits_value].
  unfold xlsx.is_digit in Ha. rewrite Ha. by apply IH.
Qed.

Lemma take_drop_upper (cell : string) :
  cell = xlsx.take_upper cell +:+ xlsx.drop_upper cell
  /\ string_forallb xlsx.is_upper (xlsx.take_upper cell) = true.
Proof.
  induction cell as [|a cell [IH Hupper]]; [done|]. simpl.
  destruct (xlsx.is_upper a) eqn:Ha; [|done]. simpl. rewrite Ha, Hupper.
  split; [|done].
  change (String a (xlsx.take_upper cell) +:+ xlsx.drop_upper cell)
    with (String a (xlsx.take_upper cell +:+ xlsx.drop_upper cell)).
  by rewrite <- IH.
Qed.

(** Wherever the notation of the spec decodes, the package's decoder gives
    the same address. *)
Lemma decode_cell_agrees (cell : string) (address : xlsx.CellAddress) :
  xlsx.decode_cell cell = Some address -> utils.decode_cell cell = address.
Proof.
  unfold xlsx.decode_cell, utils.decode_cell.
  destruct (_ && _) eqn:Hshape; [|done]. intros [= <-].
  repeat apply andb_prop in Hshape as [Hshape ?].
  destruct (take_drop_upper cell) as [Hcell Hupper].
  rewrite Hcell at 1.
  rewrite decode_cell_loop_letters, decode_cell_loop_digits by done. done.
Qed.

Lemma decode_range_agrees (range : string) (decoded : xlsx.Range) :
  xlsx.decode_range range = Some decoded -> utils.decode_range range = decoded.
Proof.
  unfold xlsx.decode_range, utils.decode_range.
  destruct (xlsx.split_colon range) as [[first last]|]; [|done].
  destruct (xlsx.decode_cell first) as [s|] eqn:Hfirst; [|done].
  destruct (xlsx.decode_cell last) as [e|] eqn:Hlast; [|done].
  intros [= <-]. by rewrite (decode_cell_agrees _ _ Hfirst), (decode_cell_agrees _ _ Hlast).
Qed.

(** X24. The round trip of a selection holds on the decoder the package
    ships: for every pair of corners within the bounds of the matrix, the
    range string that [selectionToRange] writes, decoded by the package and
    clamped by [extractRangeMatrix], yields exactly the rectangle that the
    corners span, whichever corner the drag started from. *)
Theorem selectionToRange_roundtrip_on_package_decoder
    (matrix : list (list value)) (a b : CellPosition) :
  0 <= row a < Z.of_nat (length matrix) ->
  0 <= row b < Z.of_nat (length matrix) ->
  0 <= col a < Z.of_nat (max_row_width matrix) ->
  0 <= col b < Z.of_nat (max_row_width matrix) ->
  extractRangeMatrix utils.decode_range_in_try matrix
    (Some (selectionToRange {| start := Some a; end_ := Some b |}))
  = rectangle matrix (Z.min (row a) (row b)) (Z.min (col a) (col b))
                     (Z.max (row a) (row b)) (Z.max (col a) (col b)).
Proof.
  intros Hra Hrb Hca Hcb.
  pose proof (decode_range_selectionToRange a b
                ltac:(lia) ltac:(lia) ltac:(lia) ltac:(lia)) as Hstrict.
  assert (utils.decode_range_in_try (selectionToRange {| start := Some a; end_ := Some b |})
          = Some {| xlsx.s := {| xlsx.r := Z.min (row a) (row b);
                                 xlsx.c := Z.min (col a) (col b) |};
                    xlsx.e := {| xlsx.r := Z.max (row a) (row b);
                                 xlsx.c := Z.max (col a) (col b) |} |}) as Hdec.
  { unfold utils.decode_range_in_try. by rewrite (decode_range_agrees _ _ Hstrict). }
  rewrite (extractRangeMatrix_decoded _ matrix _ _ Hdec).
  - simpl. by rewrite !clamp_inside by lia.
  - intros Heq. by rewrite Heq in Hstrict.
Qed.

(** A drag from C3 up to B2 on a 3x3 matrix. *)
Lemma selectionToRange_roundtrip_on_package_decoder_witness :
  extractRangeMatrix utils.decode_range_in_try
    [[VString "a"; VString "b"; VString "c"];
     [VString "d"; VString "e"; VString "f"];
     [VString "g"; VString "h"; VString "i"]]
    (Some (selectionToRange {| start := Some {| row := 2; col := 2 |};
                               end_ := Some {| row := 1; col := 1 |} |}))
  = rectangle
      [[VString "a"; VString "b"; VString "c"];
       [VString "d"; VString "e"; VString "f"];
       [VString "g"; VString "h"; VString "i"]] 1 1 2 2.
Proof.
  apply (selectionToRange_roundtrip_on_package_decoder
           [[VString "a"; VString "b"; VString "c"];
            [VString "d"; VString "e"; VString "f"];
            [VString "g"; VString "h"; VString "i"]]
           {| row := 2; col := 2 |} {| row := 1; col := 1 |});
    vm_compute; split; congruence.
Defined.

(** ** Range texts that hold no address *)

Lemma decode_cell_loop_skips (text : string) (R C : Z) :
  string_existsb (fun a => xlsx.is_digit a || xlsx.is_upper a) text = false ->
  utils.decode_cell_loop R C text = {| xlsx.r := R - 1; xlsx.c := C - 1 |}.
Proof.
  induction text as [|a text IH]; [done|]. simpl.
  intros [[Hdigit Hupper]%orb_false_elim Htext]%orb_false_elim.
  unfold xlsx.is_digit in Hdigit. unfold xlsx.is_upper in Hupper.
  rewrite Hdigit, Hupper. by apply IH.
Qed.

Lemma split_colon_keeps (p : ascii -> bool) (range first last : string) :
  string_existsb p range = false ->
  xlsx.split_colon range = Some (first, last) ->
  string_existsb p first = false /\ string_existsb p last = false.
Proof.
  revert first. induction range as [|a range IH]; intros first; [done|]. simpl.
  intros [Ha Hrange]%orb_false_elim.
  destruct (Ascii.eqb a ":"); [by intros [= <- <-]|].
  destruct (xlsx.split_colon range) as [[before after]|]; [|done].
  intros [= <- <-]. destruct (IH before Hrange eq_refl) as [Hbefore Hafter].
  simpl. by rewrite Ha, Hbefore.
Qed.

Lemma decode_range_without_address (range : string) :
  string_existsb (fun a => xlsx.is_digit a || xlsx.is_upper a) range = false ->
  utils.decode_range range
  = {| xlsx.s := {| xlsx.r := -1; xlsx.c := -1 |};
       xlsx.e := {| xlsx.r := -1; xlsx.c := -1 |} |}.
Proof.
  intros Hrange. unfold utils.decode_range, utils.decode_cell.
  destruct (xlsx.split_colon range) as [[first last]|] eqn:Hsplit.
  - destruct (split_colon_keeps _ _ _ _ Hrange Hsplit) as [Hfirst Hlast].
    by rewrite !decode_cell_loop_skips.
  - by rewrite !decode_cell_loop_skips.
Qed.

(** X25. On the decoder the package ships, a range text that is not empty
    and holds neither a decimal digit nor a capital letter selects the
    top-left cell alone (null when the matrix has none), whatever the
    matrix: such a text is not taken as a failure to decode, and the whole
    matrix is not what comes back. *)
Theorem extractRangeMatrix_text_without_address
    (matrix : list (list value)) (range : string) :
  range <> EmptyString ->
  string_existsb (fun a => xlsx.is_digit a || xlsx.is_upper a) range = false ->
  extractRangeMatrix utils.decode_range_in_try matrix (Some range) = [[cell_at matrix 0 0]].
Proof.
  intros Hne Hrange.
  rewrite (extractRangeMatrix_decoded utils.decode_range_in_try matrix range
             {| xlsx.s := {| xlsx.r := -1; xlsx.c := -1 |};
                xlsx.e := {| xlsx.r := -1; xlsx.c := -1 |} |}); [| |done].
  - cbn [xlsx.r xlsx.c xlsx.s xlsx.e].
    assert (forall most, 0 <= most -> clamp (-1) 0 most = 0) as Hclamp
      by (intros most Hmost; unfold clamp; lia).
    by rewrite !Hclamp by lia.
  - unfold utils.decode_range_in_try. by rewrite decode_range_without_address.
Qed.

Lemma extractRangeMatrix_text_without_address_witness :
  extractRangeMatrix utils.decode_range_in_try
    [[VString "Name"; VString "Age"]; [VString "Ann"; VNumber "30"]] (Some "not a range")
  = [[cell_at [[VString "Name"; VString "Age"]; [VString "Ann"; VNumber "30"]] 0 0]].
Proof.
  apply (extractRangeMatrix_text_without_address
           [[VString "Name"; VString "Age"]; [VString "Ann"; VNumber "30"]] "not a range");
    [discriminate | reflexivity].
Defined.
